(** * Salesforce metadata API: a shallow embedding of [server.js]

    The development follows the three stages of the request handler of
    [POST /create-metadata]: the validation of the request body, the
    generation of the three descriptor documents, and the staging of the
    documents followed by the deployment subprocess.

    Request bodies are JSON values as [express.json()] hands them to the
    handler.  Text is modelled by [string]; a character of a JavaScript
    string outside ASCII is read as its UTF-8 bytes, which is also what
    [fs.writeFileSync] puts on disk. *)

From Stdlib Require Import Ascii String.
From stdpp Require Import base option list strings gmap.

Set Warnings "-register-all".
Open Scope string_scope.

(** Text is computed with below, so [simpl] may unfold a concatenation
    whose first argument starts with a character. *)
#[local] Arguments String.append !s1 s2 / : simpl nomatch.

(** ** Characters that a literal cannot hold *)

Definition dq : string := String "034"%char EmptyString.
Definition nl : string := String "010"%char EmptyString.

(** [lines ls] is the text whose lines are [ls]: the lines of a template
    literal of the source, joined by the newline that separates them. *)
Fixpoint lines (ls : list string) : string :=
  match ls with
  | [] => ""
  | [l] => l
  | l :: rest => l +:+ nl +:+ lines rest
  end.

(** ** JSON values and completions *)

(** A number is kept as the text [Number.prototype.toString] gives for
    it: the handler only tests numbers for truthiness and interpolates
    them into templates.  Both zeros print as ["0"] and no other number
    does; [NaN] cannot come out of [JSON.parse]. *)
Inductive json : Type :=
  | JNull
  | JBool (b : bool)
  | JNum (repr : string)
  | JStr (s : string)
  | JArr (items : list json)
  | JObj (props : list (string * json)).

(** The outcome of evaluating an expression: a value, or a thrown error
    of which the handler only ever reads [error.message]. *)
Inductive completion (A : Type) : Type :=
  | Normal (a : A)
  | Throw (message : string).
Arguments Normal {A} a.
Arguments Throw {A} message.

#[global] Instance completion_ret : MRet completion := @Normal.
#[global] Instance completion_bind : MBind completion := fun A B k c =>
  match c with
  | Normal a => k a
  | Throw m => Throw m
  end.

(** Messages of the two [TypeError]s the handler can run into (wording of
    V8). *)
Definition cannot_convert : string := "Cannot convert object to primitive value".
Definition cannot_read (key : string) : string :=
  "Cannot read properties of null (reading '" +:+ key +:+ "')".

(** Own property lookup of a parsed object, first binding of the key. *)
Fixpoint own_prop (props : list (string * json)) (key : string) : option json :=
  match props with
  | [] => None
  | (k, v) :: rest => if String.eqb k key then Some v else own_prop rest key
  end.

(** [v.key] for the six keys the handler reads ([objectName], [fields],
    [orgAlias], [name], [label], [type]): none of them is inherited from
    the prototype of an object, an array, a string, a number or a
    boolean, so the result is the own property or [undefined] ([None]).
    Reading a property of [null] throws. *)
Definition get_prop (v : json) (key : string) : completion (option json) :=
  match v with
  | JNull => Throw (cannot_read key)
  | JObj props => Normal (own_prop props key)
  | _ => Normal None
  end.

(** [!!v] *)
Definition truthy (v : option json) : bool :=
  match v with
  | None => false
  | Some JNull => false
  | Some (JBool b) => b
  | Some (JNum repr) => negb (String.eqb repr "0")
  | Some (JStr s) => negb (String.eqb s "")
  | Some (JArr _) => true
  | Some (JObj _) => true
  end.

(** [ToString(v)], as a template literal and a property access apply it.
    An array prints through [join(",")], where [null] elements print as
    the empty text.  An object prints through [Object.prototype.toString]
    unless it has an own [toString] property: a parsed value is never
    callable, so [OrdinaryToPrimitive] then falls through [valueOf] and
    throws. *)
Fixpoint to_string (v : json) : completion string :=
  match v with
  | JNull => Normal "null"
  | JBool true => Normal "true"
  | JBool false => Normal "false"
  | JNum repr => Normal repr
  | JStr s => Normal s
  | JArr items =>
      (fix join (xs : list json) : completion string :=
         match xs with
         | [] => Normal ""
         | x :: rest =>
             s ← match x with JNull => Normal "" | _ => to_string x end;
             match rest with
             | [] => Normal s
             | _ => r ← join rest; Normal (s +:+ "," +:+ r)
             end
         end) items
  | JObj props =>
      match own_prop props "toString" with
      | Some _ => Throw cannot_convert
      | None => Normal "[object Object]"
      end
  end.

Definition to_string_opt (v : option json) : completion string :=
  match v with
  | None => Normal "undefined"
  | Some j => to_string j
  end.

(** ** Type resolution *)

(** What [typeMap[type]] can evaluate to besides a string of the table:
    a member of [Object.prototype], reached through the prototype chain
    of the object literal. *)
Inductive builtin : Type :=
  | ObjectPrototype
  | NativeFunction (name : string).

Inductive field_type : Type :=
  | FTStr (s : string)
  | FTBuiltin (b : builtin).

Definition builtin_to_string (b : builtin) : string :=
  match b with
  | ObjectPrototype => "[object Object]"
  | NativeFunction name => "function " +:+ name +:+ "() { [native code] }"
  end.

Definition field_type_to_string (t : field_type) : string :=
  match t with
  | FTStr s => s
  | FTBuiltin b => builtin_to_string b
  end.

Definition typeMap : gmap string string :=
  list_to_map
    [ ("Text", "Text");
      ("TextArea", "TextArea");
      ("Date", "Date");
      ("DateTime", "DateTime");
      ("Number", "Number");
      ("Checkbox", "Checkbox");
      ("Picklist", "Picklist");
      ("Email", "Email");
      ("Phone", "Phone");
      ("URL", "Url") ].

(** The properties of [Object.prototype]; [__proto__] is the accessor
    that returns the prototype itself. *)
Definition object_prototype : gmap string builtin :=
  list_to_map
    [ ("constructor", NativeFunction "Object");
      ("__defineGetter__", NativeFunction "__defineGetter__");
      ("__defineSetter__", NativeFunction "__defineSetter__");
      ("hasOwnProperty", NativeFunction "hasOwnProperty");
      ("__lookupGetter__", NativeFunction "__lookupGetter__");
      ("__lookupSetter__", NativeFunction "__lookupSetter__");
      ("isPrototypeOf", NativeFunction "isPrototypeOf");
      ("propertyIsEnumerable", NativeFunction "propertyIsEnumerable");
      ("toString", NativeFunction "toString");
      ("valueOf", NativeFunction "valueOf");
      ("__proto__", ObjectPrototype);
      ("toLocaleString", NativeFunction "toLocaleString") ].

(** [typeMap[key] || 'Text']: every value of the table and every member
    of [Object.prototype] is truthy. *)
Definition lookup_type (key : string) : field_type :=
  match typeMap !! key with
  | Some t => FTStr t
  | None =>
      match object_prototype !! key with
      | Some b => FTBuiltin b
      | None => FTStr "Text"
      end
  end.

Definition getFieldType (type : option json) : completion field_type :=
  key ← to_string_opt type;
  Normal (lookup_type key).

(** ** Field fragments *)

Definition baseXml (name label type : string) : string :=
  lines
    [ "    <fields>";
      "        <fullName>" +:+ name +:+ "__c</fullName>";
      "        <label>" +:+ label +:+ "</label>";
      "        <type>" +:+ type +:+ "</type>" ].

(** [fieldType === s] for a string literal [s] of a [case] label. *)
Definition case_label (fieldType : field_type) (s : string) : bool :=
  match fieldType with
  | FTStr t => String.eqb t s
  | FTBuiltin _ => false
  end.

Definition generateFieldXml (field : json) (fieldType : field_type) : completion string :=
  name ← get_prop field "name";
  name ← to_string_opt name;
  label ← get_prop field "label";
  label ← to_string_opt label;
  let baseXml := baseXml name label (field_type_to_string fieldType) in
  if case_label fieldType "Text" then
    Normal (lines
      [ baseXml;
        "        <length>255</length>";
        "        <required>false</required>";
        "    </fields>" ])
  else if case_label fieldType "TextArea" then
    Normal (lines
      [ baseXml;
        "        <length>32768</length>";
        "        <visibleLines>3</visibleLines>";
        "        <required>false</required>";
        "    </fields>" ])
  else if case_label fieldType "Date" then
    Normal (lines
      [ baseXml;
        "        <required>false</required>";
        "    </fields>" ])
  else if case_label fieldType "DateTime" then
    Normal (lines
      [ baseXml;
        "        <required>false</required>";
        "    </fields>" ])
  else if case_label fieldType "Number" then
    Normal (lines
      [ baseXml;
        "        <precision>18</precision>";
        "        <scale>0</scale>";
        "        <required>false</required>";
        "    </fields>" ])
  else if case_label fieldType "Checkbox" then
    Normal (lines
      [ baseXml;
        "        <defaultValue>false</defaultValue>";
        "    </fields>" ])
  else if case_label fieldType "Picklist" then
    Normal (lines
      [ baseXml;
        "        <valueSet>";
        "            <restricted>true</restricted>";
        "            <valueSetDefinition>";
        "                <sorted>false</sorted>";
        "                <value>";
        "                    <fullName>Option 1</fullName>";
        "                    <default>false</default>";
        "                    <label>Option 1</label>";
        "                </value>";
        "                <value>";
        "                    <fullName>Option 2</fullName>";
        "                    <default>false</default>";
        "                    <label>Option 2</label>";
        "                </value>";
        "            </valueSetDefinition>";
        "        </valueSet>";
        "        <required>false</required>";
        "    </fields>" ])
  else
    Normal (lines
      [ baseXml;
        "        <length>255</length>";
        "        <required>false</required>";
        "    </fields>" ]).

(** ** The three documents *)

Definition xml_declaration : string :=
  "<?xml version=" +:+ dq +:+ "1.0" +:+ dq +:+ " encoding=" +:+ dq +:+ "UTF-8" +:+ dq +:+ "?>".

Definition metadata_namespace : string :=
  "xmlns=" +:+ dq +:+ "http://soap.sforce.com/2006/04/metadata" +:+ dq.

(** [fields] is not read by the source function either. *)
Definition generateObjectMetadata (objectName : option json) (fields : list json) : completion string :=
  objectName ← to_string_opt objectName;
  Normal (lines
    [ xml_declaration;
      "<CustomObject " +:+ metadata_namespace +:+ ">";
      "    <fullName>" +:+ objectName +:+ "__c</fullName>";
      "    <label>" +:+ objectName +:+ "</label>";
      "    <pluralLabel>" +:+ objectName +:+ "s</pluralLabel>";
      "    <nameField>";
      "        <type>AutoNumber</type>";
      "        <label>" +:+ objectName +:+ " Number</label>";
      "        <displayFormat>" +:+ objectName +:+ "-{0000}</displayFormat>";
      "    </nameField>";
      "    <sharingModel>ReadWrite</sharingModel>";
      "    <enableSharing>true</enableSharing>";
      "    <enableBulkApi>true</enableBulkApi>";
      "    <enableStreamingApi>true</enableStreamingApi>";
      "    <enableReports>true</enableReports>";
      "    <enableSearch>true</enableSearch>";
      "    <enableHistory>false</enableHistory>";
      "    <enableActivities>true</enableActivities>";
      "    <deploymentStatus>Deployed</deploymentStatus>";
      "</CustomObject>" ]).

(** The callback of [fields.map]. *)
Definition field_element (field : json) : completion string :=
  type ← get_prop field "type";
  fieldType ← getFieldType type;
  fieldXml ← generateFieldXml field fieldType;
  Normal fieldXml.

(** [fields.map(field => ...)]: the callback runs on the elements from
    left to right and the first one that throws ends the call. *)
Fixpoint fieldElements (fields : list json) : completion (list string) :=
  match fields with
  | [] => Normal []
  | field :: rest =>
      fieldXml ← field_element field;
      others ← fieldElements rest;
      Normal (fieldXml :: others)
  end.

Definition generateFieldsMetadata (fields : list json) : completion string :=
  fieldElements ← fieldElements fields;
  Normal (lines
    [ xml_declaration;
      "<CustomObject " +:+ metadata_namespace +:+ ">";
      lines fieldElements;
      "</CustomObject>" ]).

Definition generatePackageXml (objectName : option json) : completion string :=
  objectName ← to_string_opt objectName;
  Normal (lines
    [ xml_declaration;
      "<Package " +:+ metadata_namespace +:+ ">";
      "    <types>";
      "        <members>" +:+ objectName +:+ "__c</members>";
      "        <name>CustomObject</name>";
      "    </types>";
      "    <version>58.0</version>";
      "</Package>" ]).

(** ** The request handler *)

(** [res.status(status).json(payload)]; a property of the payload may
    hold [undefined] ([None]). *)
Record response : Type := Response { status : nat; payload : list (string * option json) }.

Definition bad_request (message : string) : response :=
  Response 400 [("error", Some (JStr "Bad Request")); ("message", Some (JStr message))].

(** The outcome of lines 26 to 51: a 400 response, or the three
    destructured values with which the handler goes on ([None] is
    [undefined]). *)
Inductive validation : Type :=
  | Rejected (res : response)
  | Accepted (objectName : option json) (fields : list json) (orgAlias : option json).

(** [Array.isArray(fields)] and the elements of the array. *)
Definition isArray (v : option json) : bool :=
  match v with
  | Some (JArr _) => true
  | _ => false
  end.

Definition elements_of (v : option json) : list json :=
  match v with
  | Some (JArr items) => items
  | _ => []
  end.

(** [!field.name || !field.label || !field.type] *)
Definition field_incomplete (field : json) : completion bool :=
  name ← get_prop field "name";
  if negb (truthy name) then Normal true else
  label ← get_prop field "label";
  if negb (truthy label) then Normal true else
  type ← get_prop field "type";
  Normal (negb (truthy type)).

(** The [for ... of] loop of lines 44 to 51: [true] when it returned the
    400 response from inside the loop. *)
Fixpoint some_field_incomplete (fields : list json) : completion bool :=
  match fields with
  | [] => Normal false
  | field :: rest =>
      bad ← field_incomplete field;
      if bad : bool then Normal true else some_field_incomplete rest
  end.

(** [const { objectName, fields, orgAlias } = req.body] *)
Definition destructure (body : json) (key : string) : completion (option json) :=
  match body with
  | JNull =>
      Throw ("Cannot destructure property '" +:+ key +:+ "' of 'req.body' as it is null.")
  | _ => get_prop body key
  end.

Definition validate (body : json) : completion validation :=
  objectName ← destructure body "objectName";
  fields ← destructure body "fields";
  orgAlias ← destructure body "orgAlias";
  if negb (truthy objectName) || negb (truthy fields) || negb (isArray fields) then
    Normal (Rejected (bad_request "Object name and fields array are required"))
  else if negb (truthy orgAlias) then
    Normal (Rejected (bad_request "orgAlias is required"))
  else
    bad ← some_field_incomplete (elements_of fields);
    if bad : bool then
      Normal (Rejected (bad_request "Each field must have name, label, and type properties"))
    else
      Normal (Accepted objectName (elements_of fields) orgAlias).

(** *** Effects *)

(** A path handed to [fs]: the arguments of the [path.join] that built
    it, with nested joins flattened. *)
Definition path : Type := list string.

Inductive event : Type :=
  | ConsoleLog (args : list string)
  | ConsoleError (args : list string)
  | ExistsSync (p : path)
  | RmSync (p : path)
  | MkdirSync (p : path)
  | WriteFileSync (p : path) (data : string)
  | Exec (command : string).

(** What [exec] hands to its callback: [error.message] when the command
    failed, and the two captured streams. *)
Record exec_result : Type := ExecResult
  { error : option string; stdout : string; stderr : string }.

(** The world outside the process, as far as one request sees it: the
    answer of each call the handler makes. *)
Record system : Type := System
  { existsSync : path -> bool;
    rmSync : path -> completion unit;
    mkdirSync : path -> completion unit;
    writeFileSync : path -> string -> completion unit;
    exec : string -> completion exec_result }.

(** A computation of the handler: the calls made so far, in order, and a
    value or the error that interrupted it. *)
Definition action (A : Type) : Type := (list event * completion A)%type.

#[global] Instance action_ret : MRet action := fun A a => ([], Normal a).
#[global] Instance action_bind : MBind action := fun A B k m =>
  match m with
  | (tr, Normal a) => let '(tr', r) := k a in ((tr ++ tr')%list, r)
  | (tr, Throw message) => (tr, Throw message)
  end.

Definition eval {A} (c : completion A) : action A := ([], c).
Definition perform {A} (e : event) (outcome : completion A) : action A := ([e], outcome).

(** *** [app.post('/create-metadata', ...)] *)

Definition metadataDir : string := "./mdapioutput".
Definition objectDir : path := [metadataDir; "unpackaged"; "objects"].

(** [deployCommand] of line 87, with [orgAlias] printed. *)
Definition deployCommand (alias : string) : string :=
  "sfdx force:mdapi:deploy -d " +:+ metadataDir +:+ "/unpackaged -u " +:+ alias
    +:+ " --wait 10 --verbose".

(** The callback of [exec]. *)
Definition deployed (objectName : option json) (fields : list json) (r : exec_result)
  : action response :=
  match error r with
  | Some message =>
      _ ← perform (ConsoleError ["Deployment error:"; message]) (Normal ());
      mret (Response 500
        [ ("error", Some (JStr "Deployment Failed"));
          ("message", Some (JStr (if String.eqb (stderr r) "" then message else stderr r)));
          ("details", Some (JStr (stdout r))) ])
  | None =>
      _ ← perform (ConsoleLog ["Deployment successful:"; stdout r]) (Normal ());
      mret (Response 200
        [ ("message", Some (JStr "Metadata created and deployed successfully"));
          ("objectName", objectName);
          ("fields", Some (JArr fields));
          ("output", Some (JStr (stdout r))) ])
  end.

(** Lines 53 to 106, entered once the request passed validation. *)
Definition stage_and_deploy (sys : system)
    (objectName : option json) (fields : list json) (orgAlias : option json)
  : action response :=
  name ← eval (to_string_opt objectName);
  _ ← perform (ConsoleLog ["Creating metadata for object: " +:+ name]) (Normal ());
  existing ← perform (ExistsSync [metadataDir]) (Normal (existsSync sys [metadataDir]));
  _ ← (if existing : bool
       then perform (RmSync [metadataDir]) (rmSync sys [metadataDir])
       else mret ());
  _ ← perform (MkdirSync objectDir) (mkdirSync sys objectDir);
  objectMetadata ← eval (generateObjectMetadata objectName fields);
  name ← eval (to_string_opt objectName);
  let objectFilePath := (objectDir ++ [name +:+ "__c.object-meta.xml"])%list in
  _ ← perform (WriteFileSync objectFilePath objectMetadata)
        (writeFileSync sys objectFilePath objectMetadata);
  fieldsMetadata ← eval (generateFieldsMetadata fields);
  name ← eval (to_string_opt objectName);
  let fieldsFilePath := (objectDir ++ [name +:+ "__c.fields-meta.xml"])%list in
  _ ← perform (WriteFileSync fieldsFilePath fieldsMetadata)
        (writeFileSync sys fieldsFilePath fieldsMetadata);
  packageXml ← eval (generatePackageXml objectName);
  let packagePath := [metadataDir; "unpackaged"; "package.xml"] in
  _ ← perform (WriteFileSync packagePath packageXml)
        (writeFileSync sys packagePath packageXml);
  _ ← perform (ConsoleLog ["Metadata files created successfully"]) (Normal ());
  alias ← eval (to_string_opt orgAlias);
  let deployCommand := deployCommand alias in
  result ← perform (Exec deployCommand) (exec sys deployCommand);
  deployed objectName fields result.

(** The body of the [try]. *)
Definition try_create_metadata (sys : system) (body : json) : action response :=
  v ← eval (validate body);
  match v with
  | Rejected res => mret res
  | Accepted objectName fields orgAlias => stage_and_deploy sys objectName fields orgAlias
  end.

(** The handler: the calls it makes and the response it sends. *)
Definition create_metadata (sys : system) (body : json) : list event * response :=
  match try_create_metadata sys body with
  | (tr, Normal res) => (tr, res)
  | (tr, Throw message) =>
      ((tr ++ [ConsoleError ["Server error:"; message]])%list,
       Response 500
         [ ("error", Some (JStr "Internal Server Error"));
           ("message", Some (JStr message)) ])
  end.

(** ** Reading a document back *)

(** What a document declares is read off its text: the content of an
    element [<tag>...</tag>] is the text between an opening tag and the
    next closing tag of the same name. *)

(** [strip_prefix pat s] is the rest of [s] after its prefix [pat]. *)
Fixpoint strip_prefix (pat s : string) : option string :=
  match pat, s with
  | EmptyString, _ => Some s
  | String a pat', String b s' => if Ascii.eqb a b then strip_prefix pat' s' else None
  | String _ _, EmptyString => None
  end.

(** [split_at pat s] cuts [s] at the first occurrence of [pat]. *)
Fixpoint split_at (pat s : string) : option (string * string) :=
  match strip_prefix pat s with
  | Some rest => Some ("", rest)
  | None =>
      match s with
      | EmptyString => None
      | String c s' =>
          match split_at pat s' with
          | Some (before, rest) => Some (String c before, rest)
          | None => None
          end
      end
  end.

Fixpoint element_texts_upto (n : nat) (tag doc : string) : list string :=
  match n with
  | O => []
  | S n' =>
      match split_at ("<" +:+ tag +:+ ">") doc with
      | None => []
      | Some (_, inside) =>
          match split_at ("</" +:+ tag +:+ ">") inside with
          | None => []
          | Some (text, rest) => text :: element_texts_upto n' tag rest
          end
      end
  end.

(** The contents of the elements named [tag], in document order. *)
Definition element_texts (tag doc : string) : list string :=
  element_texts_upto (String.length doc) tag doc.

(** A text that opens no tag. *)
Fixpoint markup_free (s : string) : bool :=
  match s with
  | EmptyString => true
  | String c s' => negb (Ascii.eqb c "<") && markup_free s'
  end.

(** ** Observations of a run *)

(** The files a run wrote, in order, each with its content. *)
Fixpoint writes (tr : list event) : list (path * string) :=
  match tr with
  | [] => []
  | WriteFileSync p data :: rest => (p, data) :: writes rest
  | _ :: rest => writes rest
  end.

(** The calls of a run that reach the file system or start a process. *)
Definition touches_system (e : event) : bool :=
  match e with
  | ConsoleLog _ | ConsoleError _ => false
  | _ => true
  end.

(** [!field.name || !field.label || !field.type] is false. *)
Definition field_complete (field : json) : Prop :=
  exists name label type,
    get_prop field "name" = Normal name /\ truthy name = true /\
    get_prop field "label" = Normal label /\ truthy label = true /\
    get_prop field "type" = Normal type /\ truthy type = true.

Definition is_exec (e : event) : bool :=
  match e with
  | Exec _ => true
  | _ => false
  end.

(** The documents a definition calls for, each with the path it is
    written to, up to the first generator that throws. *)
Definition documents (objectName : option json) (fields : list json) : list (path * string) :=
  match to_string_opt objectName, generateObjectMetadata objectName fields with
  | Normal name, Normal objectMetadata =>
      ((objectDir ++ [name +:+ "__c.object-meta.xml"])%list, objectMetadata) ::
      match generateFieldsMetadata fields with
      | Normal fieldsMetadata =>
          ((objectDir ++ [name +:+ "__c.fields-meta.xml"])%list, fieldsMetadata) ::
          match generatePackageXml objectName with
          | Normal packageXml => [([metadataDir; "unpackaged"; "package.xml"], packageXml)]
          | Throw _ => []
          end
      | Throw _ => []
      end
  | _, _ => []
  end.

Definition documents_of_request (body : json) : list (path * string) :=
  match validate body with
  | Normal (Accepted objectName fields _) => documents objectName fields
  | _ => []
  end.

(** ** Requests and systems used as examples *)

Definition field_of (name label type : string) : json :=
  JObj [("name", JStr name); ("label", JStr label); ("type", JStr type)].

Definition request_of (objectName orgAlias : string) (fields : list json) : json :=
  JObj [("objectName", JStr objectName); ("orgAlias", JStr orgAlias); ("fields", JArr fields)].

(** A file system that accepts every call, with a deployment tool that
    always ends as [r]. *)
Definition stub_system (r : exec_result) : system :=
  System (fun _ => true) (fun _ => Normal ()) (fun _ => Normal ())
         (fun _ _ => Normal ()) (fun _ => Normal r).

Definition deploy_ok : exec_result := ExecResult None "Deploy Succeeded." "".
Definition deploy_failed : exec_result :=
  ExecResult (Some "Command failed: sfdx force:mdapi:deploy") "" "ERROR running force:mdapi:deploy".

(** The keys of the mapping table. *)
Definition recognized : list string :=
  [ "Text"; "TextArea"; "Date"; "DateTime"; "Number"; "Checkbox"; "Picklist";
    "Email"; "Phone"; "URL" ].

(** The names every object literal inherits. *)
Definition inherited : list string :=
  [ "constructor"; "__defineGetter__"; "__defineSetter__"; "hasOwnProperty";
    "__lookupGetter__"; "__lookupSetter__"; "isPrototypeOf"; "propertyIsEnumerable";
    "toString"; "valueOf"; "__proto__"; "toLocaleString" ].

(** The stringified name and label of a field, as [baseXml] reads them. *)
Definition name_and_label (field : json) : completion (string * string) :=
  name ← get_prop field "name";
  name ← to_string_opt name;
  label ← get_prop field "label";
  label ← to_string_opt label;
  Normal (name, label).

(** ** The calls of a run *)

(** The calls of a run that reach the file system or start a process,
    in order. *)
Fixpoint system_calls (tr : list event) : list event :=
  match tr with
  | [] => []
  | e :: rest => if touches_system e then e :: system_calls rest else system_calls rest
  end.

(** The text a conversion or a generator gave, when it gave one. *)
Definition printed (c : completion string) : string :=
  match c with
  | Normal s => s
  | Throw _ => ""
  end.

(** The calls lines 60 to 89 make when none of them fails, for a staging
    directory that exists or not. *)
Definition system_script (existing : bool)
    (objectName : option json) (fields : list json) (orgAlias : option json) : list event :=
  let name := printed (to_string_opt objectName) in
  (ExistsSync [metadataDir] ::
   (if existing then [RmSync [metadataDir]] else []) ++
   [ MkdirSync objectDir;
     WriteFileSync (objectDir ++ [name +:+ "__c.object-meta.xml"])
       (printed (generateObjectMetadata objectName fields));
     WriteFileSync (objectDir ++ [name +:+ "__c.fields-meta.xml"])
       (printed (generateFieldsMetadata fields));
     WriteFileSync [metadataDir; "unpackaged"; "package.xml"]
       (printed (generatePackageXml objectName));
     Exec (deployCommand (printed (to_string_opt orgAlias))) ])%list.

(** A file system on which no call fails. *)
Definition file_system_accepts (sys : system) : Prop :=
  (forall p, rmSync sys p = Normal ()) /\
  (forall p, mkdirSync sys p = Normal ()) /\
  (forall p data, writeFileSync sys p data = Normal ()).

(** The type tag of the fragment of a field: its declared type,
    resolved and printed. *)
Definition type_tag (field : json) : completion string :=
  type ← get_prop field "type";
  fieldType ← getFieldType type;
  Normal (field_type_to_string fieldType).

(** A field whose name and label print as texts free of markup and
    whose type resolves. *)
Definition plain_field (field : json) : Prop :=
  exists name label tag,
    name_and_label field = Normal (name, label) /\
    markup_free name = true /\ markup_free label = true /\
    type_tag field = Normal tag.

(** A text through which the search for an opening tag passes. *)
Definition passes (tag text : string) : Prop :=
  forall rest,
    split_at ("<" +:+ tag +:+ ">") (text +:+ rest) =
      match split_at ("<" +:+ tag +:+ ">") rest with
      | Some (before, inside) => Some (text +:+ before, inside)
      | None => None
      end.

(** ** The test client, [test-api.js] *)

(** What an [axios] call resolves with: the status and the parsed
    body. *)
Record http_response : Type := HttpResponse { http_status : nat; data : json }.

(** What the [catch] blocks read of an error: its message, and the
    response when the server answered. *)
Record client_error : Type := ClientError
  { error_message : string; error_response : option http_response }.

Inductive settled (A : Type) : Type :=
  | Fulfilled (a : A)
  | Failed (e : client_error).
Arguments Fulfilled {A} a.
Arguments Failed {A} e.

(** The HTTP client: the answer to each request the tests make.  The
    configuration of a request is fixed by the source, so the answer
    depends on the address and the body only. *)
Record axios : Type := Axios
  { axios_get : string -> settled http_response;
    axios_post : string -> json -> settled http_response }.

(** An argument of [console.log]: a text, a value, a status, or the
    [length] of a value. *)
Inductive logged : Type :=
  | Text (s : string)
  | Value (v : option json)
  | Status (n : nat)
  | Length (v : json).

Inductive test_event : Type :=
  | TestLog (args : list logged)
  | TestError (args : list logged)
  | Get (url : string)
  | Post (url : string) (body : json).

Definition API_BASE_URL : string := "http://localhost:3000".
Definition TEST_ORG_ALIAS : string := "your-org-alias".

Definition testData : json :=
  JObj
    [ ("objectName", JStr "Beat_Plan");
      ("orgAlias", JStr TEST_ORG_ALIAS);
      ("fields",
       JArr
         [ JObj [("name", JStr "Location"); ("label", JStr "Location"); ("type", JStr "Text")];
           JObj [("name", JStr "Date"); ("label", JStr "Date"); ("type", JStr "Date")];
           JObj [("name", JStr "Notes"); ("label", JStr "Notes"); ("type", JStr "TextArea")];
           JObj [("name", JStr "Priority"); ("label", JStr "Priority"); ("type", JStr "Picklist")];
           JObj [("name", JStr "Is_Active"); ("label", JStr "Is Active"); ("type", JStr "Checkbox")];
           JObj [("name", JStr "Contact_Email"); ("label", JStr "Contact Email");
                 ("type", JStr "Email")];
           JObj [("name", JStr "Phone_Number"); ("label", JStr "Phone Number");
                 ("type", JStr "Phone")] ]) ].

Definition testHealthCheck (ax : axios) : list test_event * bool :=
  let url := API_BASE_URL +:+ "/health" in
  match axios_get ax url with
  | Fulfilled response =>
      ([ TestLog [Text "🔍 Testing health check..."];
         Get url;
         TestLog [Text "✅ Health check passed:"; Value (Some (data response))] ],
       true)
  | Failed error =>
      ([ TestLog [Text "🔍 Testing health check..."];
         Get url;
         TestError [Text "❌ Health check failed:"; Text (error_message error)] ],
       false)
  end.

(** [testData.fields.map(f => `${f.name} (${f.type})`).join(', ')] *)
Definition fields_summary : string :=
  "Location (Text), Date (Date), Notes (TextArea), Priority (Picklist), "
    +:+ "Is_Active (Checkbox), Contact_Email (Email), Phone_Number (Phone)".

(** The [catch] block of [testCreateMetadata]. *)
Definition creation_failed (error : client_error) : list test_event :=
  TestError [Text "❌ Metadata creation failed:"] ::
  match error_response error with
  | Some response =>
      [ TestError [Text "Status:"; Status (http_status response)];
        TestError [Text "Error:"; Value (Some (data response))] ]
  | None => [ TestError [Text "Error:"; Text (error_message error)] ]
  end.

(** A [TypeError] has a message and no response. *)
Definition type_error (message : string) : client_error := ClientError message None.

Definition cannot_read_undefined (key : string) : string :=
  "Cannot read properties of undefined (reading '" +:+ key +:+ "')".

Definition testCreateMetadata (ax : axios) : list test_event * bool :=
  let url := API_BASE_URL +:+ "/create-metadata" in
  let before :=
    [ TestLog [Text (nl +:+ "🚀 Testing metadata creation...")];
      TestLog [Text "📋 Creating object:"; Value (Some (JStr "Beat_Plan"))];
      TestLog [Text "📊 Fields:"; Text fields_summary];
      Post url testData ] in
  match axios_post ax url testData with
  | Failed error => ((before ++ creation_failed error)%list, false)
  | Fulfilled response =>
      let resolved := (before ++ [TestLog [Text "✅ Metadata creation successful!"]])%list in
      match get_prop (data response) "message" with
      | Throw message => ((resolved ++ creation_failed (type_error message))%list, false)
      | Normal message =>
          let resolved := (resolved ++ [TestLog [Text "📤 Response:"; Value message]])%list in
          match get_prop (data response) "objectName" with
          | Throw message => ((resolved ++ creation_failed (type_error message))%list, false)
          | Normal objectName =>
              let resolved :=
                (resolved ++ [TestLog [Text "🔧 Object created:"; Value objectName]])%list in
              match get_prop (data response) "fields" with
              | Throw message =>
                  ((resolved ++ creation_failed (type_error message))%list, false)
              | Normal None =>
                  ((resolved ++ creation_failed
                      (type_error (cannot_read_undefined "length")))%list, false)
              | Normal (Some JNull) =>
                  ((resolved ++ creation_failed (type_error (cannot_read "length")))%list,
                   false)
              | Normal (Some fields) =>
                  ((resolved ++ [TestLog [Text "📊 Fields created:"; Length fields]])%list,
                   true)
              end
          end
      end
  end.

Definition runTests (ax : axios) : list test_event :=
  let '(health, healthCheckPassed) := testHealthCheck ax in
  if healthCheckPassed then
    let '(creation, _) := testCreateMetadata ax in
    (TestLog [Text ("🧪 Starting API Tests..." +:+ nl)] :: health ++ creation
       ++ [TestLog [Text (nl +:+ "🏁 Tests completed!")]])%list
  else
    (TestLog [Text ("🧪 Starting API Tests..." +:+ nl)] :: health
       ++ [ TestLog [Text (nl +:+ "❌ Health check failed. Make sure the API server is running.")];
            TestLog [Text "💡 Run: npm start or npm run dev"] ])%list.

(** The body [res.json] sends for a payload: a property that holds
    [undefined] is left out. *)
Definition payload_json (payload : list (string * option json)) : json :=
  JObj (omap (fun p => match p.2 with Some v => Some (p.1, v) | None => None end) payload).

(** The client talks to this server: a POST to [/create-metadata]
    resolves with the response of the handler when its status is in the
    200s and is rejected with that response otherwise. *)
Definition talks_to (ax : axios) (sys : system) : Prop :=
  forall body,
    let res := (create_metadata sys body).2 in
    let response := HttpResponse (status res) (payload_json (payload res)) in
    (200 <= status res < 300 ->
     axios_post ax (API_BASE_URL +:+ "/create-metadata") body = Fulfilled response) /\
    (~ 200 <= status res < 300 ->
     exists message,
       axios_post ax (API_BASE_URL +:+ "/create-metadata") body =
         Failed (ClientError message (Some response))).

(** [app.get('/health', ...)] *)
Definition health : response :=
  Response 200
    [ ("status", Some (JStr "OK"));
      ("message", Some (JStr "Salesforce Metadata API is running")) ].

(** A client whose GET, which the tests only send to [/health], is
    answered by the health check, and whose POST hands the request to
    the handler run on [sys]
    and settles as [axios] does by default: fulfilled for a
    status in the 200s, rejected otherwise. *)
Definition relaying (sys : system) : axios :=
  Axios
    (fun _ => Fulfilled (HttpResponse (status health) (payload_json (payload health))))
    (fun _ body =>
       let res := (create_metadata sys body).2 in
       let response := HttpResponse (status res) (payload_json (payload res)) in
       if Nat.leb 200 (status res) && Nat.ltb (status res) 300
       then Fulfilled response
       else Failed (ClientError "Request failed" (Some response))).

(** * Properties *)

(** ** Type resolution and field fragments *)

Lemma typeMap_unrecognized (key : string) :
  key ∉ recognized -> typeMap !! key = None.
Proof.
  intros Hkey. unfold typeMap. apply not_elem_of_list_to_map_1. exact Hkey.
Qed.

Lemma object_prototype_not_inherited (key : string) :
  key ∉ inherited -> object_prototype !! key = None.
Proof.
  intros Hkey. unfold object_prototype. apply not_elem_of_list_to_map_1. exact Hkey.
Qed.

(** Away from the inherited names, the fallback of [getFieldType] works
    as meant: an unrecognized type resolves to [Text]. *)
Lemma lookup_type_fallback (key : string) :
  key ∉ recognized -> key ∉ inherited -> lookup_type key = FTStr "Text".
Proof.
  intros Hr Hi. unfold lookup_type.
  rewrite (typeMap_unrecognized _ Hr), (object_prototype_not_inherited _ Hi).
  reflexivity.
Qed.

(** *** Text *)

Lemma append_assoc (a b c : string) : (a +:+ b) +:+ c = a +:+ (b +:+ c).
Proof.
  induction a as [|x a IH]; simpl; [reflexivity|]. rewrite IH. reflexivity.
Qed.

Lemma append_empty_r (a : string) : a +:+ "" = a.
Proof.
  induction a as [|x a IH]; simpl; [reflexivity|]. rewrite IH. reflexivity.
Qed.

(** A multi-line text placed first in a template keeps its lines. *)
Lemma lines_app (front : list string) (l : string) (back : list string) :
  lines (front ++ l :: back) =
    match front with
    | [] => lines (l :: back)
    | _ => lines front +:+ nl +:+ lines (l :: back)
    end.
Proof.
  induction front as [|f front IH]; [reflexivity|].
  destruct front as [|g front]; [reflexivity|].
  change (lines ((f :: g :: front) ++ l :: back))
    with (f +:+ nl +:+ lines ((g :: front) ++ l :: back)).
  rewrite IH.
  change (lines (f :: g :: front)) with (f +:+ nl +:+ lines (g :: front)).
  rewrite !append_assoc. reflexivity.
Qed.

Lemma lines_nested (front : list string) (l : string) (back : list string) :
  front <> [] ->
  lines (lines front :: l :: back) = lines (front ++ l :: back).
Proof.
  intros Hfront. rewrite lines_app. destruct front; [contradiction|]. reflexivity.
Qed.

(** Runs the four reads that open [generateFieldXml], given that they
    succeed. *)
Ltac read_name_and_label field H :=
  unfold generateFieldXml, name_and_label in *;
  destruct (get_prop field "name") as [?n|]; [|discriminate]; cbn in *;
  destruct (to_string_opt n) as [?n'|]; [|discriminate]; cbn in *;
  destruct (get_prop field "label") as [?l|]; [|discriminate]; cbn in *;
  destruct (to_string_opt l) as [?l'|]; [|discriminate]; cbn in *;
  injection H as -> ->.

Lemma generateFieldXml_default (field : json) (fieldType : field_type) (name label : string) :
  name_and_label field = Normal (name, label) ->
  Forall (fun s => case_label fieldType s = false)
    ["Text"; "TextArea"; "Date"; "DateTime"; "Number"; "Checkbox"; "Picklist"] ->
  generateFieldXml field fieldType =
    Normal (lines
      [ baseXml name label (field_type_to_string fieldType);
        "        <length>255</length>";
        "        <required>false</required>";
        "    </fields>" ]).
Proof.
  intros Hnl Hcases. read_name_and_label field Hnl.
  repeat match goal with
         | H : Forall _ (_ :: _) |- _ => apply Forall_cons in H as [-> H]
         end.
  reflexivity.
Qed.

(** C2: the type string ["constructor"] is not in the recognized set, yet
    it does not resolve to the short-text type: [typeMap["constructor"]]
    finds [Object] on the prototype chain, which is truthy, so the
    fallback is not taken and the fragment carries the printed function
    as its type tag where the short-text template has [Text]. *)
Theorem getFieldType_constructor :
  ("constructor" ∉ recognized) /\
  getFieldType (Some (JStr "constructor")) = Normal (FTBuiltin (NativeFunction "Object")) /\
  generateFieldXml (field_of "Status" "Status" "constructor")
                   (FTBuiltin (NativeFunction "Object")) =
    Normal (lines
      [ "    <fields>";
        "        <fullName>Status__c</fullName>";
        "        <label>Status</label>";
        "        <type>function Object() { [native code] }</type>";
        "        <length>255</length>";
        "        <required>false</required>";
        "    </fields>" ]) /\
  generateFieldXml (field_of "Status" "Status" "constructor")
                   (FTBuiltin (NativeFunction "Object")) <>
    generateFieldXml (field_of "Status" "Status" "constructor") (FTStr "Text").
Proof.
  split; [|split; [|split]].
  - unfold recognized. rewrite !not_elem_of_cons. repeat split; try discriminate.
    apply not_elem_of_nil.
  - vm_compute. reflexivity.
  - vm_compute. reflexivity.
  - vm_compute. discriminate.
Qed.

(** Every inherited name is such a type string. *)
Lemma lookup_type_inherited (key : string) :
  key ∈ inherited -> exists b, lookup_type key = FTBuiltin b.
Proof.
  unfold inherited. rewrite !elem_of_cons, elem_of_nil.
  intros H. repeat destruct H as [-> | H]; try (eexists; vm_compute; reflexivity).
  contradiction.
Qed.

(** X18: a type string that is neither a key of the mapping table nor an
    inherited name resolves to [Text] and gives the short-text fragment. *)
Lemma generateFieldXml_unrecognized (field : json) (type name label : string) :
  type ∉ recognized -> type ∉ inherited ->
  name_and_label field = Normal (name, label) ->
  getFieldType (Some (JStr type)) = Normal (FTStr "Text") /\
  generateFieldXml field (FTStr "Text") =
    Normal (lines
      [ baseXml name label "Text";
        "        <length>255</length>";
        "        <required>false</required>";
        "    </fields>" ]).
Proof.
  intros Hr Hi Hnl. split.
  - unfold getFieldType. cbn. rewrite (lookup_type_fallback _ Hr Hi). reflexivity.
  - read_name_and_label field Hnl. reflexivity.
Qed.

(** C10: [Email], [Phone] and [URL] are keys of the mapping table and
    resolve to [Email], [Phone] and [Url]; no [case] of the [switch]
    names these, so the fragment is the base fragment with the resolved
    type as its tag, followed by the attributes of the default branch:
    length 255 and required false. *)
Theorem generateFieldXml_email_phone_url (field : json) (name label : string) :
  name_and_label field = Normal (name, label) ->
  (getFieldType (Some (JStr "Email")) = Normal (FTStr "Email") /\
   getFieldType (Some (JStr "Phone")) = Normal (FTStr "Phone") /\
   getFieldType (Some (JStr "URL")) = Normal (FTStr "Url")) /\
  Forall (fun tag =>
    tag <> "Text" /\
    generateFieldXml field (FTStr tag) =
      Normal (lines
        [ "    <fields>";
          "        <fullName>" +:+ name +:+ "__c</fullName>";
          "        <label>" +:+ label +:+ "</label>";
          "        <type>" +:+ tag +:+ "</type>";
          "        <length>255</length>";
          "        <required>false</required>";
          "    </fields>" ]))
    ["Email"; "Phone"; "Url"].
Proof.
  intros Hnl. split.
  - repeat split; vm_compute; reflexivity.
  - assert (Hdefault : forall tag,
      Forall (fun s => case_label (FTStr tag) s = false)
        ["Text"; "TextArea"; "Date"; "DateTime"; "Number"; "Checkbox"; "Picklist"] ->
      generateFieldXml field (FTStr tag) =
        Normal (lines
          [ "    <fields>";
            "        <fullName>" +:+ name +:+ "__c</fullName>";
            "        <label>" +:+ label +:+ "</label>";
            "        <type>" +:+ tag +:+ "</type>";
            "        <length>255</length>";
            "        <required>false</required>";
            "    </fields>" ])).
    { intros tag Hcases.
      rewrite (generateFieldXml_default field _ name label Hnl Hcases).
      unfold baseXml. rewrite lines_nested by discriminate. reflexivity. }
    repeat (apply Forall_cons_2;
            [split; [discriminate | apply Hdefault; repeat constructor]|]).
    apply Forall_nil_2.
Qed.

Lemma generateFieldXml_email_phone_url_witness :
  name_and_label (field_of "Contact_Email" "Contact Email" "Email")
    = Normal ("Contact_Email", "Contact Email") /\
  generateFieldXml (field_of "Contact_Email" "Contact Email" "Email") (FTStr "Email") =
    Normal (lines
      [ "    <fields>";
        "        <fullName>Contact_Email__c</fullName>";
        "        <label>Contact Email</label>";
        "        <type>Email</type>";
        "        <length>255</length>";
        "        <required>false</required>";
        "    </fields>" ]).
Proof.
  split; [reflexivity|].
  pose proof (generateFieldXml_email_phone_url
                (field_of "Contact_Email" "Contact Email" "Email")
                "Contact_Email" "Contact Email" eq_refl) as [_ H].
  apply Forall_cons in H as [[_ H] _]. exact H.
Defined.

(** C8: a field whose type resolves to [Picklist] gets, after the base
    fragment, a restricted value set that holds exactly two values, named
    and labelled [Option 1] and [Option 2], each with default false. *)
Theorem field_element_picklist (field : json) (type : option json) (name label : string) :
  get_prop field "type" = Normal type ->
  getFieldType type = Normal (FTStr "Picklist") ->
  name_and_label field = Normal (name, label) ->
  exists attributes,
    field_element field = Normal (baseXml name label "Picklist" +:+ nl +:+ attributes) /\
    element_texts "restricted" attributes = ["true"] /\
    length (element_texts "value" attributes) = 2 /\
    element_texts "fullName" attributes = ["Option 1"; "Option 2"] /\
    element_texts "label" attributes = ["Option 1"; "Option 2"] /\
    element_texts "default" attributes = ["false"; "false"].
Proof.
  intros Htype Hresolved Hnl.
  unfold field_element. rewrite Htype. cbn. rewrite Hresolved. cbn.
  read_name_and_label field Hnl.
  eexists. split; [reflexivity|].
  repeat split; vm_compute; reflexivity.
Qed.

Lemma field_element_picklist_witness :
  exists attributes,
    field_element (field_of "Priority" "Priority" "Picklist") =
      Normal (baseXml "Priority" "Priority" "Picklist" +:+ nl +:+ attributes) /\
    element_texts "fullName" attributes = ["Option 1"; "Option 2"] /\
    element_texts "default" attributes = ["false"; "false"].
Proof.
  destruct (field_element_picklist (field_of "Priority" "Priority" "Picklist")
              (Some (JStr "Picklist")) "Priority" "Priority"
              eq_refl eq_refl eq_refl) as (attributes & Hxml & _ & _ & Hnames & _ & Hdefaults).
  exists attributes. repeat split; assumption.
Defined.

(** ** Validation *)

Section Validation.

#[local] Arguments String.append : simpl never.

Lemma field_incomplete_false (field : json) :
  field_incomplete field = Normal false -> field_complete field.
Proof.
  unfold field_incomplete, field_complete.
  destruct (get_prop field "name") as [name|]; [|discriminate]. cbn.
  destruct (truthy name) eqn:Hname; cbn; [|discriminate].
  destruct (get_prop field "label") as [label|]; [|discriminate]. cbn.
  destruct (truthy label) eqn:Hlabel; cbn; [|discriminate].
  destruct (get_prop field "type") as [type|]; [|discriminate]. cbn.
  destruct (truthy type) eqn:Htype; cbn; [|discriminate].
  intros _. exists name, label, type. repeat split; assumption.
Qed.

Lemma some_field_incomplete_false (fields : list json) :
  some_field_incomplete fields = Normal false -> Forall field_complete fields.
Proof.
  induction fields as [|field rest IH]; [constructor|].
  cbn. destruct (field_incomplete field) as [[|]|] eqn:Hfield; cbn; try discriminate.
  intros Hrest. constructor; [apply field_incomplete_false, Hfield | apply IH, Hrest].
Qed.

(** The three messages of a rejection, in the order of their checks. *)
Lemma validate_rejected (body : json) (res : response) :
  validate body = Normal (Rejected res) ->
  res = bad_request "Object name and fields array are required" \/
  res = bad_request "orgAlias is required" \/
  res = bad_request "Each field must have name, label, and type properties".
Proof.
  unfold validate.
  destruct (destructure body "objectName") as [o|]; [|discriminate]. cbn.
  destruct (destructure body "fields") as [f|]; [|discriminate]. cbn.
  destruct (destructure body "orgAlias") as [a|]; [|discriminate]. cbn.
  destruct (negb (truthy o) || negb (truthy f) || negb (isArray f)).
  { intros [= <-]. auto. }
  destruct (negb (truthy a)).
  { intros [= <-]. auto. }
  destruct (some_field_incomplete (elements_of f)) as [[|]|]; cbn; try discriminate.
  intros [= <-]. auto.
Qed.

Lemma validate_rejected_400 (body : json) (res : response) :
  validate body = Normal (Rejected res) -> status res = 400.
Proof.
  intros H. destruct (validate_rejected body res H) as [-> | [-> | ->]]; reflexivity.
Qed.

(** Check (a) and (b): without an object name, or without an array of
    fields, nothing else is looked at. *)
Lemma validate_object_name_and_fields (body : json) (o f a : option json) :
  destructure body "objectName" = Normal o ->
  destructure body "fields" = Normal f ->
  destructure body "orgAlias" = Normal a ->
  truthy o = false \/ truthy f = false \/ isArray f = false ->
  validate body =
    Normal (Rejected (bad_request "Object name and fields array are required")).
Proof.
  intros Ho Hf Ha Hbad. unfold validate. rewrite Ho, Hf, Ha. cbn.
  destruct Hbad as [-> | [-> | ->]]; cbn; rewrite ?orb_true_r; reflexivity.
Qed.

(** X19: check (c) comes before the loop over the fields: with an object
    name and an array of fields, a missing [orgAlias] is reported
    whatever the entries of the array are. *)
Lemma validate_orgAlias (body : json) (o f a : option json) :
  destructure body "objectName" = Normal o ->
  destructure body "fields" = Normal f ->
  destructure body "orgAlias" = Normal a ->
  truthy o = true -> truthy f = true -> isArray f = true ->
  truthy a = false ->
  validate body = Normal (Rejected (bad_request "orgAlias is required")).
Proof.
  intros Ho Hf Ha Hto Htf Hif Hta. unfold validate. rewrite Ho, Hf, Ha. cbn.
  rewrite Hto, Htf, Hif, Hta. reflexivity.
Qed.

(** Check (d), on entries that can be read. *)
Lemma validate_fields (body : json) (o f a : option json) :
  destructure body "objectName" = Normal o ->
  destructure body "fields" = Normal f ->
  destructure body "orgAlias" = Normal a ->
  truthy o = true -> truthy f = true -> isArray f = true ->
  truthy a = true ->
  some_field_incomplete (elements_of f) = Normal true ->
  validate body =
    Normal (Rejected (bad_request "Each field must have name, label, and type properties")).
Proof.
  intros Ho Hf Ha Hto Htf Hif Hta Hbad. unfold validate. rewrite Ho, Hf, Ha. cbn.
  rewrite Hto, Htf, Hif, Hta. cbn. rewrite Hbad. reflexivity.
Qed.

(** What goes on to descriptor generation passed every check. *)
Lemma validate_accepted (body : json) (o : option json) (fields : list json) (a : option json) :
  validate body = Normal (Accepted o fields a) ->
  destructure body "objectName" = Normal o /\ truthy o = true /\
  destructure body "fields" = Normal (Some (JArr fields)) /\
  destructure body "orgAlias" = Normal a /\ truthy a = true /\
  Forall field_complete fields.
Proof.
  unfold validate.
  destruct (destructure body "objectName") as [o'|]; [|discriminate]. cbn.
  destruct (destructure body "fields") as [f|]; [|discriminate]. cbn.
  destruct (destructure body "orgAlias") as [a'|]; [|discriminate]. cbn.
  destruct (truthy o') eqn:Ho; cbn; [|discriminate].
  destruct (truthy f) eqn:Hf; cbn; [|discriminate].
  destruct (isArray f) eqn:Harr; cbn; [|discriminate].
  destruct (truthy a') eqn:Ha; cbn; [|discriminate].
  destruct (some_field_incomplete (elements_of f)) as [[|]|] eqn:Hfields; cbn;
    try discriminate.
  intros [= <- <- <-].
  destruct f as [[| | | |items|]|]; try discriminate.
  repeat split; try assumption; try reflexivity.
  apply some_field_incomplete_false, Hfields.
Qed.

End Validation.

(** ** The handler *)

Section Handler.

#[local] Arguments String.append : simpl never.
#[local] Arguments generateObjectMetadata : simpl never.
#[local] Arguments generateFieldsMetadata : simpl never.
#[local] Arguments generatePackageXml : simpl never.
#[local] Arguments to_string_opt : simpl never.
#[local] Arguments deployed : simpl never.
#[local] Arguments deployCommand : simpl never.

(** Runs the handler through every answer the system can give. *)
Ltac run_handler :=
  repeat (cbn;
    match goal with
    | |- context [match ?c with Normal _ => _ | Throw _ => _ end] => destruct c eqn:?
    | |- context [if ?b then _ else _] => destruct b eqn:?
    | |- context [deployed ?o ?f ?r] => destruct (deployed o f r) eqn:?
    end).

(** The calls of a trace written out, up to the first [Exec]. *)
Ltac before_exec l :=
  lazymatch l with
  | Exec _ :: _ => constr:(@nil event)
  | ?e :: ?rest => let r := before_exec rest in constr:(e :: r)
  | _ => constr:(@nil event)
  end.

Lemma deployed_outcome (o : option json) (f : list json) (r : exec_result) :
  exists post res,
    deployed o f r = (post, Normal res) /\
    Forall (fun e => is_exec e = false) post /\ writes post = [] /\
    res =
      match error r with
      | Some message =>
          Response 500
            [ ("error", Some (JStr "Deployment Failed"));
              ("message", Some (JStr (if String.eqb (stderr r) "" then message else stderr r)));
              ("details", Some (JStr (stdout r))) ]
      | None =>
          Response 200
            [ ("message", Some (JStr "Metadata created and deployed successfully"));
              ("objectName", o);
              ("fields", Some (JArr f));
              ("output", Some (JStr (stdout r))) ]
      end.
Proof.
  unfold deployed, perform. destruct (error r); cbn;
    eexists _, _; repeat split; repeat constructor.
Qed.

(** The shape of every run of lines 53 to 106: the calls before the
    deployment never start a process; either the run is interrupted
    among them, or the three documents were generated and written, in
    this order, and the deployment tool was started once. *)
Lemma stage_and_deploy_inv (sys : system) (o : option json) (f : list json)
    (a : option json) (tr : list event) (c : completion response) :
  stage_and_deploy sys o f a = (tr, c) ->
  exists pre,
    Forall (fun e => is_exec e = false) pre /\
    writes pre `prefix_of` documents o f /\
    ((tr = pre /\ exists message, c = Throw message) \/
     (exists name obj flds pkg alias,
        to_string_opt o = Normal name /\
        generateObjectMetadata o f = Normal obj /\
        generateFieldsMetadata f = Normal flds /\
        generatePackageXml o = Normal pkg /\
        to_string_opt a = Normal alias /\
        writes pre =
          [ ((objectDir ++ [name +:+ "__c.object-meta.xml"])%list, obj);
            ((objectDir ++ [name +:+ "__c.fields-meta.xml"])%list, flds);
            ([metadataDir; "unpackaged"; "package.xml"], pkg) ] /\
        ((exists message,
            exec sys (deployCommand alias) = Throw message /\
            tr = (pre ++ [Exec (deployCommand alias)])%list /\ c = Throw message) \/
         (exists r post,
            exec sys (deployCommand alias) = Normal r /\
            deployed o f r = (post, c) /\
            tr = (pre ++ Exec (deployCommand alias) :: post)%list)))).
Proof.
  unfold stage_and_deploy, eval, perform.
  run_handler; cbn; intros [= Htr Hc];
    match type of Htr with
    | ?l = _ => let pre := before_exec l in exists pre
    end;
    subst tr c; (split; [repeat constructor|]);
    (split;
      [unfold documents;
       repeat match goal with
              | H : ?x = Normal _ |- context [?x] => rewrite H
              end;
       cbn; repeat first [apply prefix_nil | apply prefix_cons | reflexivity]|]).
  all: try (left; split; [reflexivity|eexists; reflexivity]).
  all: right; do 5 eexists; repeat (split; [eassumption || reflexivity|]).
  all: first
    [ left; eexists; split; [eassumption|split; reflexivity]
    | right; eexists _, _; split; [eassumption|split; [eassumption|reflexivity]] ].
Qed.

Lemma writes_app (tr1 tr2 : list event) :
  writes (tr1 ++ tr2) = (writes tr1 ++ writes tr2)%list.
Proof.
  induction tr1 as [|e tr1 IH]; [reflexivity|].
  destruct e; cbn; rewrite IH; reflexivity.
Qed.

Lemma not_exec_not_in (pre : list event) (command : string) :
  Forall (fun e => is_exec e = false) pre -> Exec command ∉ pre.
Proof.
  intros Hpre Hin. rewrite Forall_forall in Hpre.
  specialize (Hpre _ Hin). discriminate.
Qed.

(** Whatever the system answers, the files written are the documents
    of the definition, in order, up to the point the run got to. *)
Lemma stage_and_deploy_writes (sys : system) (o : option json) (f : list json)
    (a : option json) :
  writes (stage_and_deploy sys o f a).1 `prefix_of` documents o f.
Proof.
  destruct (stage_and_deploy sys o f a) as [tr c] eqn:Hrun. cbn [fst].
  apply stage_and_deploy_inv in Hrun as (pre & _ & Hpre & [[-> _] | Hrun]);
    [exact Hpre|].
  destruct Hrun as (name & obj & flds & pkg & alias & _ & _ & _ & _ & _ & Hw & Hexec).
  assert (writes tr = writes pre) as ->; [|exact Hpre].
  destruct Hexec as [(m & _ & -> & _) | (r & post & _ & Hd & ->)];
    rewrite writes_app; cbn.
  - apply app_nil_r.
  - destruct (deployed_outcome o f r) as (post' & res' & Hd' & _ & Hpost & _).
    rewrite Hd' in Hd. injection Hd as <- _. rewrite Hpost. apply app_nil_r.
Qed.

(** *** The three ways a request ends *)

#[local] Arguments stage_and_deploy : simpl never.

Lemma try_create_metadata_cases (sys : system) (body : json) :
  (exists res,
     validate body = Normal (Rejected res) /\
     try_create_metadata sys body = ([], Normal res)) \/
  (exists message,
     validate body = Throw message /\
     try_create_metadata sys body = ([], Throw message)) \/
  (exists o f a,
     validate body = Normal (Accepted o f a) /\
     try_create_metadata sys body = stage_and_deploy sys o f a).
Proof.
  unfold try_create_metadata, eval.
  destruct (validate body) as [[res|o f a]|message]; cbn.
  - left. eexists. split; reflexivity.
  - right. right. exists o, f, a. split; [reflexivity|].
    destruct (stage_and_deploy sys o f a). reflexivity.
  - right. left. eexists. split; reflexivity.
Qed.

Lemma stage_and_deploy_status (sys : system) (o : option json) (f : list json)
    (a : option json) (tr : list event) (res : response) :
  stage_and_deploy sys o f a = (tr, Normal res) -> status res = 200 \/ status res = 500.
Proof.
  intros Hrun. apply stage_and_deploy_inv in Hrun as (pre & _ & _ & [[_ [m Hm]] | Hrun]);
    [discriminate|].
  destruct Hrun as (name & obj & flds & pkg & alias & _ & _ & _ & _ & _ & _ & Hexec).
  destruct Hexec as [(m & _ & _ & Hm) | (r & post & _ & Hd & _)]; [discriminate|].
  destruct (deployed_outcome o f r) as (post' & res' & Hd' & _ & _ & Hres).
  rewrite Hd' in Hd. injection Hd as _ <-. rewrite Hres.
  destruct (error r); cbn; auto.
Qed.

(** A rejected request ends the handler on the spot: no call was made
    and the response is the rejection. *)
Lemma create_metadata_rejected (sys : system) (body : json) (res : response) :
  validate body = Normal (Rejected res) -> create_metadata sys body = ([], res).
Proof.
  intros Hv. unfold create_metadata, try_create_metadata, eval. rewrite Hv. reflexivity.
Qed.

(** A 400 response is always such a rejection, so a run that ends in
    400 made no call at all: the file system is as it was. *)
Lemma create_metadata_400 (sys : system) (body : json) :
  status (create_metadata sys body).2 = 400 ->
  (create_metadata sys body).1 = [] /\
  exists res, validate body = Normal (Rejected res).
Proof.
  unfold create_metadata.
  destruct (try_create_metadata_cases sys body)
    as [(res & Hv & ->) | [(m & Hv & ->) | (o & f & a & Hv & ->)]]; cbn.
  - intros _. split; [reflexivity|]. exists res. exact Hv.
  - discriminate.
  - destruct (stage_and_deploy sys o f a) as [tr [res|m]] eqn:Hrun; cbn; [|discriminate].
    intros H400. destruct (stage_and_deploy_status _ _ _ _ _ _ Hrun) as [H | H];
      rewrite H in H400; discriminate.
Qed.

Lemma create_metadata_accepted (sys : system) (body : json)
    (o : option json) (f : list json) (a : option json) :
  validate body = Normal (Accepted o f a) ->
  try_create_metadata sys body = stage_and_deploy sys o f a.
Proof.
  intros Hv. unfold try_create_metadata, eval. rewrite Hv. cbn.
  destruct (stage_and_deploy sys o f a). reflexivity.
Qed.

(** *** Empty field lists *)

(** C1 as the code has it: a body whose [objectName] and [orgAlias]
    are non-empty strings and whose [fields] is the empty array passes
    validation.  An empty array is truthy and is an array, and the loop
    over its entries has nothing to reject; the handler goes on to
    staging with the empty field list and never answers 400. *)
Theorem validate_empty_fields (body : json) (objectName orgAlias : string) :
  destructure body "objectName" = Normal (Some (JStr objectName)) ->
  objectName <> "" ->
  destructure body "orgAlias" = Normal (Some (JStr orgAlias)) ->
  orgAlias <> "" ->
  destructure body "fields" = Normal (Some (JArr [])) ->
  validate body =
    Normal (Accepted (Some (JStr objectName)) [] (Some (JStr orgAlias))) /\
  forall sys,
    try_create_metadata sys body =
      stage_and_deploy sys (Some (JStr objectName)) [] (Some (JStr orgAlias)) /\
    status (create_metadata sys body).2 <> 400.
Proof.
  intros Ho Hname Ha Halias Hf.
  assert (Hv : validate body =
                 Normal (Accepted (Some (JStr objectName)) [] (Some (JStr orgAlias)))).
  { unfold validate. rewrite Ho, Hf, Ha. cbn.
    apply String.eqb_neq in Hname, Halias. rewrite Hname, Halias. reflexivity. }
  split; [exact Hv|]. intros sys. split.
  - apply create_metadata_accepted, Hv.
  - intros H400. apply create_metadata_400 in H400 as [_ [res Hres]].
    rewrite Hv in Hres. discriminate.
Qed.

Lemma validate_empty_fields_witness :
  validate (request_of "Beat_Plan" "x" []) =
    Normal (Accepted (Some (JStr "Beat_Plan")) [] (Some (JStr "x"))).
Proof.
  apply (validate_empty_fields (request_of "Beat_Plan" "x" []) "Beat_Plan" "x");
    solve [reflexivity | discriminate].
Defined.

(** C1 as the specification states it fails on the request with an
    empty [fields] array: validation does not reject it, and with a
    deployment tool that succeeds the response is 200; the fields
    descriptor that was written has no fragment. *)
Lemma empty_fields_not_rejected :
  let body := request_of "Beat_Plan" "x" [] in
  (forall res, validate body <> Normal (Rejected res)) /\
  status (create_metadata (stub_system deploy_ok) body).2 = 200 /\
  status (create_metadata (stub_system deploy_ok) body).2 <> 400 /\
  generateFieldsMetadata [] =
    Normal (lines
      [ xml_declaration;
        "<CustomObject " +:+ metadata_namespace +:+ ">";
        "";
        "</CustomObject>" ]).
Proof.
  cbv zeta. split; [|split; [|split]].
  - intros res. vm_compute. discriminate.
  - vm_compute. reflexivity.
  - vm_compute. discriminate.
  - reflexivity.
Qed.

(** *** Field entries that cannot be read *)

(** C3: check (d) does not end in a 400 when an entry of [fields] is
    [null].  Reading [field.name] throws, inside the loop, so
    validation ends with the error instead of the field-structure
    message; this also holds when the entries before it are complete.
    The order of the checks is as claimed: without [orgAlias] the same
    array is never looked into and the request is rejected for the
    missing environment identifier. *)
Theorem validate_null_field_entry :
  validate (request_of "Beat_Plan" "x" [JNull]) =
    Throw "Cannot read properties of null (reading 'name')" /\
  validate (request_of "Beat_Plan" "x" [field_of "Location" "Location" "Text"; JNull]) =
    Throw "Cannot read properties of null (reading 'name')" /\
  validate (JObj [("objectName", JStr "Beat_Plan"); ("fields", JArr [JNull])]) =
    Normal (Rejected (bad_request "orgAlias is required")).
Proof.
  repeat split; reflexivity.
Qed.

(** C4: the request whose [fields] array holds [null] fails validation
    and touches neither the file system nor the deployment tool, but the
    response is the 500 of the [catch] block and not a 400, whatever the
    system is. *)
Theorem create_metadata_null_field_entry (sys : system) :
  let body := request_of "Beat_Plan" "x" [JNull] in
  validate body = Throw "Cannot read properties of null (reading 'name')" /\
  (create_metadata sys body).2 =
    Response 500
      [ ("error", Some (JStr "Internal Server Error"));
        ("message", Some (JStr "Cannot read properties of null (reading 'name')")) ] /\
  status (create_metadata sys body).2 <> 400 /\
  Forall (fun e => touches_system e = false) (create_metadata sys body).1 /\
  writes (create_metadata sys body).1 = [].
Proof.
  cbv zeta. split; [reflexivity|]. split; [reflexivity|]. split.
  - cbn. discriminate.
  - split; [|reflexivity]. repeat constructor.
Qed.

(** *** The response after the deployment *)

Lemma exec_in_run (pre post : list event) (c0 command : string) :
  Forall (fun e => is_exec e = false) pre ->
  Forall (fun e => is_exec e = false) post ->
  Exec command ∈ (pre ++ Exec c0 :: post)%list -> command = c0.
Proof.
  intros Hpre Hpost Hin. apply elem_of_app in Hin as [Hin | Hin].
  - exfalso. exact (not_exec_not_in _ _ Hpre Hin).
  - apply elem_of_cons in Hin as [[= ->] | Hin]; [reflexivity|].
    exfalso. exact (not_exec_not_in _ _ Hpost Hin).
Qed.

(** C5: when the deployment tool was started and [exec] called back
    with [r], the response is 200 if [r] carries no error, with the
    object name and the field list of the request and the captured
    standard output; it is 500 if [r] carries an error, with the
    captured standard error, or the message of the error when that is
    empty, and the standard output captured so far.  When the body of
    the [try] throws, the response is 500 with the message of the
    error.  None of them is the 400 of a rejection. *)
Theorem create_metadata_response (sys : system) (body : json) :
  (forall command r,
     Exec command ∈ (create_metadata sys body).1 ->
     exec sys command = Normal r ->
     exists objectName fields,
       destructure body "objectName" = Normal objectName /\
       destructure body "fields" = Normal (Some (JArr fields)) /\
       (create_metadata sys body).2 =
         match error r with
         | None =>
             Response 200
               [ ("message", Some (JStr "Metadata created and deployed successfully"));
                 ("objectName", objectName);
                 ("fields", Some (JArr fields));
                 ("output", Some (JStr (stdout r))) ]
         | Some message =>
             Response 500
               [ ("error", Some (JStr "Deployment Failed"));
                 ("message",
                  Some (JStr (if String.eqb (stderr r) "" then message else stderr r)));
                 ("details", Some (JStr (stdout r))) ]
         end) /\
  (forall tr message,
     try_create_metadata sys body = (tr, Throw message) ->
     (create_metadata sys body).2 =
       Response 500
         [ ("error", Some (JStr "Internal Server Error"));
           ("message", Some (JStr message)) ]).
Proof.
  split.
  - intros command r Hin Hexec. unfold create_metadata in *.
    destruct (try_create_metadata_cases sys body)
      as [(res & Hv & Hrun) | [(m & Hv & Hrun) | (o & f & a & Hv & Hrun)]];
      rewrite Hrun in *; cbn in Hin.
    + apply elem_of_nil in Hin. contradiction.
    + apply list_elem_of_singleton in Hin. discriminate.
    + apply validate_accepted in Hv as (Ho & _ & Hf & _).
      exists o, f. split; [exact Ho|]. split; [exact Hf|].
      destruct (stage_and_deploy sys o f a) as [tr c] eqn:Hstage.
      apply stage_and_deploy_inv in Hstage as (pre & Hpre & _ & Hcases).
      destruct Hcases as [[-> [m ->]] | Hcases].
      { cbn in Hin. apply elem_of_app in Hin as [Hin | Hin].
        - exfalso. exact (not_exec_not_in _ _ Hpre Hin).
        - apply list_elem_of_singleton in Hin. discriminate. }
      destruct Hcases as (name & obj & flds & pkg & alias & _ & _ & _ & _ & _ & _ & Hcases).
      destruct Hcases as [(m & Hthrow & -> & ->) | (r' & post & Hnormal & Hd & ->)].
      { cbn in Hin. rewrite <- app_assoc in Hin. cbn in Hin.
        apply exec_in_run in Hin; [|exact Hpre|repeat constructor].
        subst command. rewrite Hthrow in Hexec. discriminate. }
      destruct (deployed_outcome o f r') as (post' & res & Hd' & Hpost & _ & Hres).
      rewrite Hd' in Hd. injection Hd as <- <-. cbn in Hin |- *.
      apply exec_in_run in Hin; [|exact Hpre|exact Hpost].
      subst command. rewrite Hnormal in Hexec. injection Hexec as ->.
      exact Hres.
  - intros tr message Hrun. unfold create_metadata. rewrite Hrun. reflexivity.
Qed.

Lemma create_metadata_response_witness :
  let body := request_of "Beat_Plan" "x" [field_of "Location" "Location" "Text"] in
  (create_metadata (stub_system deploy_ok) body).2 =
    Response 200
      [ ("message", Some (JStr "Metadata created and deployed successfully"));
        ("objectName", Some (JStr "Beat_Plan"));
        ("fields", Some (JArr [field_of "Location" "Location" "Text"]));
        ("output", Some (JStr "Deploy Succeeded.")) ] /\
  (create_metadata (stub_system deploy_failed) body).2 =
    Response 500
      [ ("error", Some (JStr "Deployment Failed"));
        ("message", Some (JStr "ERROR running force:mdapi:deploy"));
        ("details", Some (JStr "")) ].
Proof.
  cbv zeta. split.
  - destruct (proj1 (create_metadata_response (stub_system deploy_ok)
               (request_of "Beat_Plan" "x" [field_of "Location" "Location" "Text"]))
               (deployCommand "x") deploy_ok) as (o & f & Ho & Hf & Hres).
    + vm_compute. repeat constructor.
    + reflexivity.
    + injection Ho as <-. injection Hf as <-. exact Hres.
  - destruct (proj1 (create_metadata_response (stub_system deploy_failed)
               (request_of "Beat_Plan" "x" [field_of "Location" "Location" "Text"]))
               (deployCommand "x") deploy_failed) as (o & f & Ho & Hf & Hres).
    + vm_compute. repeat constructor.
    + reflexivity.
    + exact Hres.
Defined.

(** *** Determinism *)

Lemma writes_create_metadata (sys : system) (body : json) :
  writes (create_metadata sys body).1 = writes (try_create_metadata sys body).1.
Proof.
  unfold create_metadata. destruct (try_create_metadata sys body) as [tr [res|m]]; cbn.
  - reflexivity.
  - rewrite writes_app. apply app_nil_r.
Qed.

Lemma exec_create_metadata (sys : system) (body : json) (command : string) :
  Exec command ∈ (create_metadata sys body).1 ->
  Exec command ∈ (try_create_metadata sys body).1.
Proof.
  unfold create_metadata. destruct (try_create_metadata sys body) as [tr [res|m]]; cbn.
  - auto.
  - intros Hin. apply elem_of_app in Hin as [Hin | Hin]; [exact Hin|].
    apply list_elem_of_singleton in Hin. discriminate.
Qed.

(** The files a run writes are fixed by the request: the system only
    decides how far the run gets. *)
Lemma create_metadata_writes (sys : system) (body : json) :
  writes (create_metadata sys body).1 `prefix_of` documents_of_request body.
Proof.
  rewrite writes_create_metadata. unfold documents_of_request.
  destruct (try_create_metadata_cases sys body)
    as [(res & -> & ->) | [(m & -> & ->) | (o & f & a & -> & ->)]]; cbn.
  - apply prefix_nil.
  - apply prefix_nil.
  - apply stage_and_deploy_writes.
Qed.

(** A run that started the deployment tool wrote all three documents,
    and the command it ran is fixed by the request as well. *)
Lemma create_metadata_deployed (sys : system) (body : json) (command : string) :
  Exec command ∈ (create_metadata sys body).1 ->
  writes (create_metadata sys body).1 = documents_of_request body /\
  length (documents_of_request body) = 3 /\
  exists o f a alias,
    validate body = Normal (Accepted o f a) /\
    to_string_opt a = Normal alias /\ command = deployCommand alias.
Proof.
  intros Hin. apply exec_create_metadata in Hin.
  rewrite writes_create_metadata. unfold documents_of_request.
  destruct (try_create_metadata_cases sys body)
    as [(res & Hv & Hrun) | [(m & Hv & Hrun) | (o & f & a & Hv & Hrun)]];
    rewrite Hrun in *; rewrite Hv; cbn in Hin.
  - apply elem_of_nil in Hin. contradiction.
  - apply elem_of_nil in Hin. contradiction.
  - destruct (stage_and_deploy sys o f a) as [tr c] eqn:Hstage. cbn in Hin |- *.
    apply stage_and_deploy_inv in Hstage as (pre & Hpre & _ & Hcases).
    destruct Hcases as [[-> _] | Hcases].
    { exfalso. exact (not_exec_not_in _ _ Hpre Hin). }
    destruct Hcases as (name & obj & flds & pkg & alias & Hn & Hobj & Hflds & Hpkg & Ha & Hw & Hcases).
    assert (Hdocs : documents o f = writes pre).
    { unfold documents. rewrite Hn, Hobj, Hflds, Hpkg, Hw. reflexivity. }
    assert (writes tr = writes pre /\ command = deployCommand alias) as [-> ->].
    { destruct Hcases as [(m & _ & -> & _) | (r & post & _ & Hd & ->)].
      - rewrite writes_app. cbn. rewrite app_nil_r. split; [reflexivity|].
        apply (exec_in_run pre [] _ _ Hpre); [constructor|exact Hin].
      - destruct (deployed_outcome o f r) as (post' & res' & Hd' & Hpost & Hwpost & _).
        rewrite Hd' in Hd. injection Hd as <- _.
        rewrite writes_app. cbn. rewrite Hwpost, app_nil_r. split; [reflexivity|].
        apply (exec_in_run pre post' _ _ Hpre Hpost Hin). }
    rewrite Hdocs. split; [reflexivity|]. split; [rewrite Hw; reflexivity|].
    exists o, f, a, alias. repeat split; assumption.
Qed.

(** C6: two runs of the handler on the same request, in whatever
    state the system is each time, write the same documents: the files
    of one run are the first files of the other, byte for byte and
    path for path, and two runs that both get to the deployment wrote
    the same three documents and ran the same command. *)
Theorem create_metadata_deterministic (body : json) (sys1 sys2 : system) :
  let tr1 := (create_metadata sys1 body).1 in
  let tr2 := (create_metadata sys2 body).1 in
  (writes tr1 `prefix_of` writes tr2 \/ writes tr2 `prefix_of` writes tr1) /\
  (forall c1 c2,
     Exec c1 ∈ tr1 -> Exec c2 ∈ tr2 ->
     writes tr1 = writes tr2 /\ length (writes tr1) = 3 /\ c1 = c2).
Proof.
  cbv zeta. split.
  - apply (prefix_weak_total _ _ (documents_of_request body));
      apply create_metadata_writes.
  - intros c1 c2 H1 H2.
    apply create_metadata_deployed in H1 as (Hw1 & Hlen & o1 & f1 & a1 & alias1 & Hv1 & Ha1 & ->).
    apply create_metadata_deployed in H2 as (Hw2 & _ & o2 & f2 & a2 & alias2 & Hv2 & Ha2 & ->).
    rewrite Hw1, Hw2. split; [reflexivity|]. split; [exact Hlen|].
    rewrite Hv1 in Hv2. injection Hv2 as _ _ <-.
    rewrite Ha1 in Ha2. injection Ha2 as <-. reflexivity.
Qed.

Lemma create_metadata_deterministic_witness :
  let body :=
    request_of "Beat_Plan" "x"
      [ field_of "Location" "Location" "Text"; field_of "Date" "Date" "Date";
        field_of "Notes" "Notes" "TextArea"; field_of "Visited" "Visited" "DateTime";
        field_of "Score" "Score" "Number"; field_of "Is_Active" "Is Active" "Checkbox";
        field_of "Priority" "Priority" "Picklist" ] in
  writes (create_metadata (stub_system deploy_ok) body).1 =
  writes (create_metadata (stub_system deploy_failed) body).1.
Proof.
  cbv zeta.
  refine (proj1 (proj2 (create_metadata_deterministic _ (stub_system deploy_ok)
                          (stub_system deploy_failed))
                   (deployCommand "x") (deployCommand "x") _ _));
    vm_compute; repeat constructor.
Defined.

End Handler.

(** ** What the documents declare *)

Section Reading.

Lemma strip_prefix_length (pat s rest : string) :
  strip_prefix pat s = Some rest -> String.length s = String.length pat + String.length rest.
Proof.
  revert s. induction pat as [|a pat IH]; intros [|b s]; cbn; try discriminate.
  - intros [= <-]. reflexivity.
  - intros [= <-]. reflexivity.
  - destruct (Ascii.eqb a b); [|discriminate]. intros H. rewrite (IH _ H). reflexivity.
Qed.

Lemma split_at_length (pat s before rest : string) :
  split_at pat s = Some (before, rest) ->
  String.length s = String.length before + String.length pat + String.length rest.
Proof.
  revert before. induction s as [|c s IH]; intros before; cbn.
  - destruct (strip_prefix pat "") eqn:Hp; [|discriminate].
    intros [= <- <-]. apply strip_prefix_length in Hp. exact Hp.
  - destruct (strip_prefix pat (String c s)) eqn:Hp.
    + intros [= <- <-]. apply strip_prefix_length in Hp. exact Hp.
    + destruct (split_at pat s) as [[b r]|]; [|discriminate].
      intros [= <- <-]. cbn. rewrite (IH b eq_refl). reflexivity.
Qed.

Lemma element_texts_upto_enough (tag : string) (n : nat) (doc : string) :
  String.length doc <= n ->
  element_texts_upto n tag doc = element_texts_upto (String.length doc) tag doc.
Proof.
  revert doc. induction n as [n IH] using lt_wf_ind. intros doc Hn.
  destruct n as [|n].
  - destruct doc; [reflexivity|]. cbn in Hn. lia.
  - destruct (String.length doc) as [|m] eqn:Hlen.
    + destruct doc; [|discriminate]. cbn. reflexivity.
    + cbn [element_texts_upto].
      destruct (split_at ("<" +:+ tag +:+ ">") doc) as [[before inside]|] eqn:Hopen;
        [|reflexivity].
      destruct (split_at ("</" +:+ tag +:+ ">") inside) as [[text rest]|] eqn:Hclose;
        [|reflexivity].
      apply split_at_length in Hopen, Hclose. cbn in Hopen, Hclose.
      f_equal. rewrite (IH n) by lia. rewrite (IH m) by lia. reflexivity.
Qed.

Lemma element_texts_cons (tag doc before inside text rest : string) :
  split_at ("<" +:+ tag +:+ ">") doc = Some (before, inside) ->
  split_at ("</" +:+ tag +:+ ">") inside = Some (text, rest) ->
  element_texts tag doc = text :: element_texts tag rest.
Proof.
  intros Hopen Hclose. unfold element_texts.
  destruct (String.length doc) as [|n] eqn:Hlen.
  - apply split_at_length in Hopen. cbn in Hopen. lia.
  - cbn [element_texts_upto]. rewrite Hopen, Hclose. f_equal.
    apply element_texts_upto_enough.
    apply split_at_length in Hopen, Hclose. cbn in Hopen, Hclose. lia.
Qed.

Lemma element_texts_nil (tag doc : string) :
  split_at ("<" +:+ tag +:+ ">") doc = None -> element_texts tag doc = [].
Proof.
  intros Hopen. unfold element_texts.
  destruct (String.length doc); cbn [element_texts_upto]; [reflexivity|].
  rewrite Hopen. reflexivity.
Qed.

Lemma split_at_markup_free (tag s rest : string) :
  markup_free s = true ->
  split_at (String "<" tag) (s +:+ rest) =
    match split_at (String "<" tag) rest with
    | Some (before, after) => Some (s +:+ before, after)
    | None => None
    end.
Proof.
  intros Hs. induction s as [|c s IH].
  - cbn. destruct (split_at (String "<" tag) rest) as [[b r]|]; reflexivity.
  - cbn in Hs. apply andb_prop in Hs as [Hc Hs].
    change (String c s +:+ rest) with (String c (s +:+ rest)).
    cbn [split_at strip_prefix].
    rewrite Ascii.eqb_sym. apply negb_true_iff in Hc. rewrite Hc.
    rewrite (IH Hs). destruct (split_at (String "<" tag) rest) as [[b r]|]; reflexivity.
Qed.

(** Writes a document as one text, its literal parts character by
    character. *)
Ltac normalize_text :=
  cbv [lines xml_declaration metadata_namespace dq nl]; rewrite ?append_assoc; simpl.

(** Runs [split_at] over a document, through the interpolated texts that
    are known to be free of markup. *)
Ltac scan :=
  simpl; repeat (rewrite split_at_markup_free by assumption; simpl); reflexivity.

(** C7: the object descriptor of a name holds the element
    [<pluralLabel>] with the name followed by [s], for every name;
    read back from a descriptor whose name is free of markup, as an
    identifier is, the plural label is that text and there is no other. *)
Theorem generateObjectMetadata_pluralLabel (name : string) (fields : list json) :
  exists doc,
    generateObjectMetadata (Some (JStr name)) fields = Normal doc /\
    (exists before after,
       doc = before +:+ "<pluralLabel>" +:+ (name +:+ "s") +:+ "</pluralLabel>" +:+ after) /\
    (markup_free name = true -> element_texts "pluralLabel" doc = [name +:+ "s"]).
Proof.
  eexists. split; [reflexivity|]. split.
  - exists (xml_declaration +:+ nl +:+ "<CustomObject " +:+ metadata_namespace +:+ ">" +:+ nl
            +:+ "    <fullName>" +:+ name +:+ "__c</fullName>" +:+ nl
            +:+ "    <label>" +:+ name +:+ "</label>" +:+ nl +:+ "    ").
    eexists. normalize_text. reflexivity.
  - intros Hname. normalize_text.
    erewrite element_texts_cons; [|scan|scan].
    f_equal. apply element_texts_nil. scan.
Qed.

Lemma generateObjectMetadata_pluralLabel_witness :
  exists doc,
    generateObjectMetadata (Some (JStr "Beat_Plan")) [] = Normal doc /\
    element_texts "pluralLabel" doc = ["Beat_Plans"].
Proof.
  destruct (generateObjectMetadata_pluralLabel "Beat_Plan" []) as (doc & Hdoc & _ & Hread).
  exists doc. split; [exact Hdoc|]. apply Hread. reflexivity.
Defined.




End Reading.

(** * Further properties of the handler *)

(** ** What validation accepts *)

Section Acceptance.

#[local] Arguments String.append : simpl never.

Lemma field_complete_not_incomplete (field : json) :
  field_complete field -> field_incomplete field = Normal false.
Proof.
  intros (name & label & type & Hn & Htn & Hl & Htl & Ht & Htt).
  unfold field_incomplete. rewrite Hn. cbn. rewrite Htn. cbn.
  rewrite Hl. cbn. rewrite Htl. cbn. rewrite Ht. cbn. rewrite Htt. reflexivity.
Qed.

Lemma some_field_incomplete_complete (fields : list json) :
  Forall field_complete fields -> some_field_incomplete fields = Normal false.
Proof.
  induction 1 as [|field rest Hfield _ IH]; [reflexivity|].
  cbn. rewrite (field_complete_not_incomplete _ Hfield). cbn. exact IH.
Qed.

Lemma some_field_incomplete_app (before rest : list json) :
  Forall field_complete before ->
  some_field_incomplete (before ++ rest) = some_field_incomplete rest.
Proof.
  induction 1 as [|field before Hfield _ IH]; [reflexivity|].
  cbn. rewrite (field_complete_not_incomplete _ Hfield). cbn. exact IH.
Qed.

(** X1: validation accepts a body exactly when [objectName] is truthy,
    [fields] is an array, [orgAlias] is truthy and every entry of the
    array has a truthy [name], [label] and [type]; the values it hands
    on are the ones of the body.  Nothing asks for strings: a number, a
    boolean or an array passes as a name. *)
Theorem validate_accepted_iff (body : json) (o : option json) (fields : list json)
    (a : option json) :
  validate body = Normal (Accepted o fields a) <->
  destructure body "objectName" = Normal o /\ truthy o = true /\
  destructure body "fields" = Normal (Some (JArr fields)) /\
  destructure body "orgAlias" = Normal a /\ truthy a = true /\
  Forall field_complete fields.
Proof.
  split; [apply validate_accepted|].
  intros (Ho & Hto & Hf & Ha & Hta & Hfields).
  unfold validate. rewrite Ho, Hf, Ha. cbn. rewrite Hto, Hta. cbn.
  rewrite (some_field_incomplete_complete _ Hfields). reflexivity.
Qed.

Lemma validate_accepted_iff_witness :
  validate (JObj [ ("objectName", JNum "7"); ("orgAlias", JBool true);
                   ("fields", JArr [JObj [ ("name", JNum "1"); ("label", JArr []);
                                           ("type", JStr "Text") ]]) ]) =
    Normal (Accepted (Some (JNum "7"))
              [JObj [("name", JNum "1"); ("label", JArr []); ("type", JStr "Text")]]
              (Some (JBool true))).
Proof.
  apply validate_accepted_iff. repeat split; try reflexivity.
  constructor; [|constructor].
  exists (Some (JNum "1")), (Some (JArr [])), (Some (JStr "Text")).
  repeat split; reflexivity.
Defined.

(** X2: the loop over the entries stops at the first entry it cannot
    accept.  After complete entries, an entry with a falsy [name],
    [label] or [type] ends validation with the field-structure
    rejection, and a [null] entry ends it with the error of the read;
    what comes after that entry is never looked at, so [[{}, null]] is
    rejected with a 400 while [[null, {}]] is not. *)
Theorem validate_first_bad_entry (body : json) (o a : option json)
    (before : list json) (bad : json) (rest : list json) :
  destructure body "objectName" = Normal o -> truthy o = true ->
  destructure body "orgAlias" = Normal a -> truthy a = true ->
  destructure body "fields" = Normal (Some (JArr (before ++ bad :: rest))) ->
  Forall field_complete before ->
  (field_incomplete bad = Normal true ->
   validate body =
     Normal (Rejected (bad_request "Each field must have name, label, and type properties"))) /\
  (bad = JNull -> validate body = Throw (cannot_read "name")).
Proof.
  intros Ho Hto Ha Hta Hf Hbefore.
  unfold validate. rewrite Ho, Hf, Ha. cbn. rewrite Hto, Hta. cbn.
  rewrite (some_field_incomplete_app _ _ Hbefore). split.
  - intros Hbad. cbn. rewrite Hbad. reflexivity.
  - intros ->. reflexivity.
Qed.

Lemma validate_first_bad_entry_witness :
  validate (request_of "Beat_Plan" "x" [field_of "Location" "Location" "Text"; JObj []; JNull]) =
    Normal (Rejected (bad_request "Each field must have name, label, and type properties")) /\
  validate (request_of "Beat_Plan" "x" [field_of "Location" "Location" "Text"; JNull; JObj []]) =
    Throw (cannot_read "name").
Proof.
  split.
  - refine (proj1 (validate_first_bad_entry
                     (request_of "Beat_Plan" "x"
                        [field_of "Location" "Location" "Text"; JObj []; JNull])
                     (Some (JStr "Beat_Plan")) (Some (JStr "x"))
                     [field_of "Location" "Location" "Text"] (JObj []) [JNull]
                     eq_refl eq_refl eq_refl eq_refl eq_refl _) eq_refl).
    constructor; [|constructor].
    exists (Some (JStr "Location")), (Some (JStr "Location")), (Some (JStr "Text")).
    repeat split; reflexivity.
  - refine (proj2 (validate_first_bad_entry
                     (request_of "Beat_Plan" "x"
                        [field_of "Location" "Location" "Text"; JNull; JObj []])
                     (Some (JStr "Beat_Plan")) (Some (JStr "x"))
                     [field_of "Location" "Location" "Text"] JNull [JObj []]
                     eq_refl eq_refl eq_refl eq_refl eq_refl _) eq_refl).
    constructor; [|constructor].
    exists (Some (JStr "Location")), (Some (JStr "Location")), (Some (JStr "Text")).
    repeat split; reflexivity.
Defined.

End Acceptance.

(** ** The calls the handler makes *)

Section Protocol.

#[local] Arguments String.append : simpl never.
#[local] Arguments generateObjectMetadata : simpl never.
#[local] Arguments generateFieldsMetadata : simpl never.
#[local] Arguments generatePackageXml : simpl never.
#[local] Arguments to_string_opt : simpl never.
#[local] Arguments deployCommand : simpl never.
#[local] Arguments printed : simpl never.
#[local] Arguments stage_and_deploy : simpl never.

(** Runs lines 53 to 106 through every answer the system can give. *)
Ltac run_stage :=
  unfold stage_and_deploy, deployed, eval, perform;
  repeat (cbn;
    match goal with
    | |- context [match ?c with Normal _ => _ | Throw _ => _ end] => destruct c eqn:?
    | |- context [if ?b then _ else _] => destruct b eqn:?
    | |- context [match error ?r with Some _ => _ | None => _ end] => destruct (error r) eqn:?
    end);
  cbn.

Lemma system_calls_app (tr1 tr2 : list event) :
  system_calls (tr1 ++ tr2) = (system_calls tr1 ++ system_calls tr2)%list.
Proof.
  induction tr1 as [|e tr1 IH]; [reflexivity|].
  cbn. destruct (touches_system e); cbn; rewrite IH; reflexivity.
Qed.

Lemma elem_of_system_calls (e : event) (tr : list event) :
  e ∈ system_calls tr <-> e ∈ tr /\ touches_system e = true.
Proof.
  induction tr as [|x tr IH]; cbn.
  - rewrite elem_of_nil. tauto.
  - destruct (touches_system x) eqn:Hx; rewrite ?elem_of_cons, IH.
    + split; [intros [-> | [? ?]]; auto | intros [[-> | ?] ?]; auto].
    + split; [intros [? ?]; auto | intros [[-> | ?] ?]; [congruence | auto]].
Qed.

Lemma stage_and_deploy_script (sys : system) (o : option json) (f : list json)
    (a : option json) :
  system_calls (stage_and_deploy sys o f a).1 `prefix_of`
    system_script (existsSync sys [metadataDir]) o f a.
Proof.
  unfold system_script. run_stage;
    repeat match goal with
           | H : ?x = Normal _ |- context [printed ?x] => rewrite H
           end;
    unfold printed;
    repeat first [apply prefix_nil | apply prefix_cons | reflexivity].
Qed.

(** X5: the calls of every run follow one script: [existsSync], [rmSync]
    only when the staging directory exists, [mkdirSync], the object
    descriptor, the fields descriptor, the manifest, then [exec].  A run
    makes a first part of these calls, in this order, and no other: a
    request that is not accepted makes none, and after [exec] nothing is
    removed or written. *)
Theorem create_metadata_script (sys : system) (body : json) :
  match validate body with
  | Normal (Accepted o f a) =>
      system_calls (create_metadata sys body).1 `prefix_of`
        system_script (existsSync sys [metadataDir]) o f a
  | _ => system_calls (create_metadata sys body).1 = []
  end.
Proof.
  assert (Hcatch : system_calls (create_metadata sys body).1 =
                   system_calls (try_create_metadata sys body).1).
  { unfold create_metadata. destruct (try_create_metadata sys body) as [tr [res|m]]; cbn.
    - reflexivity.
    - rewrite system_calls_app. apply app_nil_r. }
  rewrite Hcatch.
  destruct (try_create_metadata_cases sys body)
    as [(res & -> & ->) | [(m & -> & ->) | (o & f & a & -> & ->)]]; cbn.
  - reflexivity.
  - reflexivity.
  - apply stage_and_deploy_script.
Qed.

(** Inverts the membership of a call in a trace that is written out. *)
Ltac in_trace H :=
  repeat (apply elem_of_cons in H as [H | H]; [try discriminate H|]);
  try (apply elem_of_nil in H; contradiction).

(** Each step of staging is guarded by the one before it: the directory
    is created only after an existing one was removed, a file is
    written only after the directory was created, and the deployment
    tool is started only after the three documents were written. *)
Lemma stage_and_deploy_guards (sys : system) (o : option json) (f : list json)
    (a : option json) :
  (forall p, MkdirSync p ∈ (stage_and_deploy sys o f a).1 ->
     existsSync sys [metadataDir] = true ->
     RmSync [metadataDir] ∈ (stage_and_deploy sys o f a).1 /\
     rmSync sys [metadataDir] = Normal ()) /\
  (forall p data, WriteFileSync p data ∈ (stage_and_deploy sys o f a).1 ->
     mkdirSync sys objectDir = Normal ()) /\
  (forall command, Exec command ∈ (stage_and_deploy sys o f a).1 ->
     forall p data, (p, data) ∈ documents o f -> writeFileSync sys p data = Normal ()).
Proof.
  unfold documents. run_stage; repeat split; intros.
  all: repeat match goal with u : () |- _ => destruct u end.
  all: repeat match goal with H : _ ∈ _ |- _ => in_trace H end.
  all: try discriminate.
  all: try assumption.
  all: try reflexivity.
  all: try (repeat constructor; fail).
  all: match goal with H : (_, _) = (_, _) |- _ => injection H as -> -> end; assumption.
Qed.

Lemma system_call_in_run (sys : system) (body : json) (e : event) :
  touches_system e = true ->
  e ∈ (create_metadata sys body).1 -> e ∈ (try_create_metadata sys body).1.
Proof.
  intros He. unfold create_metadata.
  destruct (try_create_metadata sys body) as [tr [res|m]]; cbn; [auto|].
  intros Hin. apply elem_of_app in Hin as [Hin | Hin]; [exact Hin|].
  apply list_elem_of_singleton in Hin. subst e. discriminate.
Qed.

(** X6: each step of staging waits for the one before it: the directory is
    created only after an existing one was removed, a file is written
    only after the directory was created, and the deployment tool is
    started only after each of the three documents was written without
    error. *)
Theorem create_metadata_guards (sys : system) (body : json) :
  (forall p, MkdirSync p ∈ (create_metadata sys body).1 ->
     existsSync sys [metadataDir] = true ->
     RmSync [metadataDir] ∈ (create_metadata sys body).1 /\
     rmSync sys [metadataDir] = Normal ()) /\
  (forall p data, WriteFileSync p data ∈ (create_metadata sys body).1 ->
     mkdirSync sys objectDir = Normal ()) /\
  (forall command, Exec command ∈ (create_metadata sys body).1 ->
     forall p data, (p, data) ∈ documents_of_request body ->
     writeFileSync sys p data = Normal ()).
Proof.
  assert (Hback : forall e, e ∈ (try_create_metadata sys body).1 ->
                            e ∈ (create_metadata sys body).1).
  { intros e. unfold create_metadata.
    destruct (try_create_metadata sys body) as [tr [res|m]]; cbn; [auto|].
    intros Hin. apply elem_of_app. left. exact Hin. }
  unfold documents_of_request.
  destruct (try_create_metadata_cases sys body)
    as [(res & Hv & Hrun) | [(m & Hv & Hrun) | (o & f & a & Hv & Hrun)]]; rewrite Hv.
  - repeat split; intros; exfalso;
      match goal with
      | H : _ ∈ (create_metadata _ _).1 |- _ =>
          apply system_call_in_run in H; [rewrite Hrun in H; cbn in H; in_trace H | reflexivity]
      end.
  - repeat split; intros; exfalso;
      match goal with
      | H : _ ∈ (create_metadata _ _).1 |- _ =>
          apply system_call_in_run in H; [rewrite Hrun in H; cbn in H; in_trace H | reflexivity]
      end.
  - destruct (stage_and_deploy_guards sys o f a) as (Hmk & Hw & Hexec).
    rewrite <- Hrun in Hmk, Hw, Hexec. repeat split.
    + apply Hback. apply (Hmk p); [apply system_call_in_run; [reflexivity|]|]; assumption.
    + apply (Hmk p); [apply system_call_in_run; [reflexivity|]|]; assumption.
    + intros p data Hin. apply (Hw p data). apply system_call_in_run; [reflexivity|assumption].
    + intros command Hin. apply Hexec with command.
      apply system_call_in_run; [reflexivity|assumption].
Qed.

Lemma create_metadata_guards_witness :
  let body := request_of "Beat_Plan" "x" [field_of "Location" "Location" "Text"] in
  RmSync [metadataDir] ∈ (create_metadata (stub_system deploy_ok) body).1.
Proof.
  cbv zeta.
  refine (proj1 (proj1 (create_metadata_guards (stub_system deploy_ok) _) objectDir _ eq_refl)).
  vm_compute. repeat constructor.
Defined.

(** X3: a 400 is always one of the three rejections of validation, with
    error [Bad Request], and nothing was called. *)
Theorem create_metadata_bad_request (sys : system) (body : json) :
  status (create_metadata sys body).2 = 400 ->
  (create_metadata sys body).1 = [] /\
  exists message,
    (create_metadata sys body).2 =
      Response 400 [("error", Some (JStr "Bad Request")); ("message", Some (JStr message))] /\
    message ∈ [ "Object name and fields array are required";
                "orgAlias is required";
                "Each field must have name, label, and type properties" ].
Proof.
  intros H400. destruct (create_metadata_400 _ _ H400) as [Htr [res Hv]].
  split; [exact Htr|].
  rewrite (create_metadata_rejected sys body res Hv). cbn.
  destruct (validate_rejected body res Hv) as [-> | [-> | ->]];
    eexists; (split; [reflexivity|]); repeat constructor.
Qed.

Lemma create_metadata_bad_request_witness :
  (create_metadata (stub_system deploy_ok) (JObj [("objectName", JStr "Beat_Plan")])).1 = [].
Proof.
  apply create_metadata_bad_request. reflexivity.
Defined.

(** X4: a 200 is sent only after the deployment tool ran and reported no
    error, with all three documents of the request written before. *)
Theorem create_metadata_ok (sys : system) (body : json) :
  status (create_metadata sys body).2 = 200 ->
  exists o f a alias r,
    validate body = Normal (Accepted o f a) /\
    to_string_opt a = Normal alias /\
    Exec (deployCommand alias) ∈ (create_metadata sys body).1 /\
    exec sys (deployCommand alias) = Normal r /\ error r = None /\
    writes (create_metadata sys body).1 = documents o f /\
    length (documents o f) = 3.
Proof.
  unfold create_metadata.
  destruct (try_create_metadata_cases sys body)
    as [(res & Hv & Hrun) | [(m & Hv & Hrun) | (o & f & a & Hv & Hrun)]];
    rewrite Hrun; cbn.
  - rewrite (validate_rejected_400 _ _ Hv). discriminate.
  - discriminate.
  - destruct (stage_and_deploy sys o f a) as [tr c] eqn:Hstage.
    apply stage_and_deploy_inv in Hstage as (pre & _ & _ & Hcases).
    destruct Hcases as [[-> [m ->]] | Hcases]; [cbn; discriminate|].
    destruct Hcases
      as (name & obj & flds & pkg & alias & Hn & Hobj & Hflds & Hpkg & Ha & Hw & Hcases).
    destruct Hcases as [(m & _ & -> & ->) | (r & post & Hexec & Hd & ->)];
      [cbn; discriminate|].
    destruct (deployed_outcome o f r) as (post' & res & Hd' & _ & Hpost & Hres).
    rewrite Hd' in Hd. injection Hd as <- <-. cbn. intros H200.
    assert (Hdocs : documents o f = writes pre).
    { unfold documents. rewrite Hn, Hobj, Hflds, Hpkg, Hw. reflexivity. }
    exists o, f, a, alias, r. split; [exact Hv|]. split; [exact Ha|].
    split; [apply elem_of_app; right; constructor|]. split; [exact Hexec|].
    split.
    { rewrite Hres in H200. destruct (error r); [discriminate|reflexivity]. }
    split.
    { rewrite writes_app. cbn. rewrite Hpost, app_nil_r. symmetry. exact Hdocs. }
    rewrite Hdocs, Hw. reflexivity.
Qed.

Lemma create_metadata_ok_witness :
  exists r,
    exec (stub_system deploy_ok) (deployCommand "x") = Normal r /\ error r = None.
Proof.
  destruct (create_metadata_ok (stub_system deploy_ok)
              (request_of "Beat_Plan" "x" [field_of "Location" "Location" "Text"]) eq_refl)
    as (o & f & a & alias & r & Hv & Ha & _ & Hexec & Herr & _).
  injection Hv as <- <- <-. injection Ha as <-.
  exists r. split; assumption.
Defined.

End Protocol.

(** ** Failures after validation *)

Section LateFailures.

#[local] Arguments String.append : simpl never.
#[local] Arguments generateObjectMetadata : simpl never.
#[local] Arguments generateFieldsMetadata : simpl never.
#[local] Arguments generatePackageXml : simpl never.
#[local] Arguments to_string_opt : simpl never.
#[local] Arguments deployCommand : simpl never.
#[local] Arguments printed : simpl never.

Lemma generateObjectMetadata_printed (o : option json) (f : list json) (name : string) :
  to_string_opt o = Normal name ->
  generateObjectMetadata o f = Normal (printed (generateObjectMetadata o f)).
Proof.
  intros Hn. unfold generateObjectMetadata. rewrite Hn. reflexivity.
Qed.

Lemma generatePackageXml_printed (o : option json) (name : string) :
  to_string_opt o = Normal name ->
  generatePackageXml o = Normal (printed (generatePackageXml o)).
Proof.
  intros Hn. unfold generatePackageXml. rewrite Hn. reflexivity.
Qed.

(** Runs lines 53 to 106 on a file system that accepts every call. *)
Ltac stage_on_accepting Hrm Hmk Hw :=
  unfold stage_and_deploy, eval, perform;
  repeat (cbn;
    first [ rewrite Hrm | rewrite Hmk | rewrite Hw
          | match goal with
            | H : ?x = _ |- context [match ?x with Normal _ => _ | Throw _ => _ end] =>
                rewrite H
            end ]);
  cbn.

(** X7: passing validation does not mean the documents can be generated.
    When the fields descriptor cannot be (a field holds a name, a label
    or a type that cannot be printed), the handler has already rebuilt
    the staging directory and written the object descriptor: it writes
    nothing more, does not start the deployment tool and answers 500
    with the message of the error. *)
Theorem create_metadata_fields_failure (sys : system) (body : json)
    (o : option json) (f : list json) (a : option json) (name message : string) :
  file_system_accepts sys ->
  validate body = Normal (Accepted o f a) ->
  to_string_opt o = Normal name ->
  generateFieldsMetadata f = Throw message ->
  writes (create_metadata sys body).1 =
    [ ((objectDir ++ [name +:+ "__c.object-meta.xml"])%list,
       printed (generateObjectMetadata o f)) ] /\
  (forall command, Exec command ∉ (create_metadata sys body).1) /\
  (create_metadata sys body).2 =
    Response 500
      [ ("error", Some (JStr "Internal Server Error"));
        ("message", Some (JStr message)) ].
Proof.
  intros (Hrm & Hmk & Hw) Hv Hn Hflds.
  pose proof (generateObjectMetadata_printed o f name Hn) as Hobj.
  unfold create_metadata. rewrite (create_metadata_accepted sys body o f a Hv).
  destruct (existsSync sys [metadataDir]) eqn:Hex;
    stage_on_accepting Hrm Hmk Hw; rewrite ?Hex; stage_on_accepting Hrm Hmk Hw;
    (split; [reflexivity|]); (split; [|reflexivity]);
    intros command Hin;
    repeat (apply elem_of_cons in Hin as [Hin | Hin]; [discriminate Hin|]);
    apply elem_of_nil in Hin; contradiction.
Qed.

Lemma create_metadata_fields_failure_witness :
  let body :=
    request_of "Beat_Plan" "x"
      [JObj [("name", JObj [("toString", JNull)]); ("label", JStr "L"); ("type", JStr "Text")]] in
  status (create_metadata (stub_system deploy_ok) body).2 = 500 /\
  length (writes (create_metadata (stub_system deploy_ok) body).1) = 1.
Proof.
  cbv zeta.
  destruct (create_metadata_fields_failure (stub_system deploy_ok)
              (request_of "Beat_Plan" "x"
                 [JObj [("name", JObj [("toString", JNull)]); ("label", JStr "L");
                        ("type", JStr "Text")]])
              (Some (JStr "Beat_Plan"))
              [JObj [("name", JObj [("toString", JNull)]); ("label", JStr "L");
                     ("type", JStr "Text")]]
              (Some (JStr "x")) "Beat_Plan" cannot_convert)
    as (Hw & _ & Hres).
  - repeat split.
  - reflexivity.
  - reflexivity.
  - reflexivity.
  - rewrite Hw, Hres. split; reflexivity.
Defined.

(** X8: the object name and the environment identifier are printed at
    different ends of the run.  An accepted object name that cannot be
    printed stops the handler at its first line, before any call to the
    system; an accepted [orgAlias] that cannot be printed is only met
    when the command is built, after the staging directory was rebuilt
    and all three documents were written, and the deployment tool is
    not started.  Both end in a 500 with the message of the error. *)
Theorem create_metadata_unprintable (sys : system) (body : json)
    (o : option json) (f : list json) (a : option json) (message : string) :
  validate body = Normal (Accepted o f a) ->
  (to_string_opt o = Throw message ->
   create_metadata sys body =
     ([ConsoleError ["Server error:"; message]],
      Response 500
        [ ("error", Some (JStr "Internal Server Error"));
          ("message", Some (JStr message)) ])) /\
  (file_system_accepts sys ->
   (exists name, to_string_opt o = Normal name) ->
   (exists fieldsMetadata, generateFieldsMetadata f = Normal fieldsMetadata) ->
   to_string_opt a = Throw message ->
   writes (create_metadata sys body).1 = documents o f /\
   length (documents o f) = 3 /\
   (forall command, Exec command ∉ (create_metadata sys body).1) /\
   (create_metadata sys body).2 =
     Response 500
       [ ("error", Some (JStr "Internal Server Error"));
         ("message", Some (JStr message)) ]).
Proof.
  intros Hv. split.
  - intros Hn. unfold create_metadata. rewrite (create_metadata_accepted sys body o f a Hv).
    unfold stage_and_deploy, eval. rewrite Hn. reflexivity.
  - intros (Hrm & Hmk & Hw) [name Hn] [flds Hflds] Ha.
    pose proof (generateObjectMetadata_printed o f name Hn) as Hobj.
    pose proof (generatePackageXml_printed o name Hn) as Hpkg.
    unfold documents. rewrite Hn, Hobj, Hflds, Hpkg.
    unfold create_metadata. rewrite (create_metadata_accepted sys body o f a Hv).
    destruct (existsSync sys [metadataDir]) eqn:Hex;
      stage_on_accepting Hrm Hmk Hw; rewrite ?Hex; stage_on_accepting Hrm Hmk Hw;
      (split; [reflexivity|]); (split; [reflexivity|]); (split; [|reflexivity]);
      intros command Hin;
      repeat (apply elem_of_cons in Hin as [Hin | Hin]; [discriminate Hin|]);
      apply elem_of_nil in Hin; contradiction.
Qed.

Lemma create_metadata_unprintable_witness :
  let early := JObj [ ("objectName", JObj [("toString", JNull)]); ("orgAlias", JStr "x");
                      ("fields", JArr []) ] in
  let late := JObj [ ("objectName", JStr "Beat_Plan"); ("orgAlias", JObj [("toString", JNull)]);
                     ("fields", JArr []) ] in
  writes (create_metadata (stub_system deploy_ok) early).1 = [] /\
  length (writes (create_metadata (stub_system deploy_ok) late).1) = 3.
Proof.
  cbv zeta. split.
  - rewrite (proj1 (create_metadata_unprintable (stub_system deploy_ok)
               (JObj [ ("objectName", JObj [("toString", JNull)]); ("orgAlias", JStr "x");
                       ("fields", JArr []) ])
               (Some (JObj [("toString", JNull)])) [] (Some (JStr "x")) cannot_convert
               eq_refl) eq_refl).
    reflexivity.
  - destruct (proj2 (create_metadata_unprintable (stub_system deploy_ok)
               (JObj [ ("objectName", JStr "Beat_Plan");
                       ("orgAlias", JObj [("toString", JNull)]); ("fields", JArr []) ])
               (Some (JStr "Beat_Plan")) [] (Some (JObj [("toString", JNull)]))
               cannot_convert eq_refl))
      as (Hw & Hlen & _).
    + repeat split.
    + exists "Beat_Plan". reflexivity.
    + eexists. reflexivity.
    + reflexivity.
    + rewrite Hw. exact Hlen.
Defined.

End LateFailures.

(** ** The fields descriptor *)

Section Fragments.

#[local] Arguments String.append : simpl never.
#[local] Arguments field_element : simpl never.

(** X9: [fields.map] gives one fragment for each entry, in the order of the
    entries, each the fragment of its own entry; and when it throws, the
    error is the one of the first entry whose fragment cannot be made,
    every entry before it having given its fragment. *)
Theorem fieldElements_each (fields : list json) :
  (forall fragments,
     fieldElements fields = Normal fragments <->
     Forall2 (fun field fragment => field_element field = Normal fragment) fields fragments) /\
  (forall message,
     fieldElements fields = Throw message <->
     exists before bad rest,
       fields = (before ++ bad :: rest)%list /\
       Forall (fun field => exists fragment, field_element field = Normal fragment) before /\
       field_element bad = Throw message).
Proof.
  induction fields as [|field fields [IHn IHt]]; split.
  - intros fragments. cbn. split.
    + intros [= <-]. constructor.
    + intros H. inversion H. reflexivity.
  - intros message. cbn. split; [discriminate|].
    intros (before & bad & rest & Heq & _). destruct before; discriminate.
  - intros fragments. cbn. destruct (field_element field) as [x|m] eqn:Hx; cbn.
    + destruct (fieldElements fields) as [xs|m] eqn:Hxs; cbn.
      * split.
        -- intros [= <-]. constructor; [exact Hx | apply IHn; reflexivity].
        -- intros H. inversion H as [|? y ? ys Hy Hys]; subst.
           rewrite Hx in Hy. injection Hy as <-.
           apply IHn in Hys. injection Hys as <-. reflexivity.
      * split; [discriminate|].
        intros H. inversion H as [|? y ? ys Hy Hys]; subst.
        apply IHn in Hys. discriminate.
    + split; [discriminate|].
      intros H. inversion H as [|? y ? ys Hy Hys]; subst. rewrite Hx in Hy. discriminate.
  - intros message. cbn. destruct (field_element field) as [x|m] eqn:Hx; cbn.
    + destruct (fieldElements fields) as [xs|m] eqn:Hxs; cbn.
      * split; [discriminate|].
        intros (before & bad & rest & Heq & Hbefore & Hbad).
        destruct before as [|b before]; cbn in Heq; injection Heq as -> ->.
        -- rewrite Hx in Hbad. discriminate.
        -- apply Forall_cons in Hbefore as [_ Hbefore].
           assert (Normal xs = Throw message) as [=].
           apply IHt. exists before, bad, rest. auto.
      * split.
        -- intros [= <-]. destruct (proj1 (IHt m) eq_refl) as (before & bad & rest & -> & Hb & Hbad).
           exists (field :: before), bad, rest. repeat split; [|exact Hbad].
           constructor; [exists x; exact Hx | exact Hb].
        -- intros (before & bad & rest & Heq & Hbefore & Hbad).
           destruct before as [|b before]; cbn in Heq; injection Heq as -> ->.
           ++ rewrite Hx in Hbad. discriminate.
           ++ apply Forall_cons in Hbefore as [_ Hbefore].
              apply IHt. exists before, bad, rest. auto.
    + split.
      * intros [= <-]. exists [], field, fields. repeat split; [constructor | exact Hx].
      * intros (before & bad & rest & Heq & Hbefore & Hbad).
        destruct before as [|b before]; cbn in Heq; injection Heq as -> ->.
        -- rewrite Hx in Hbad. injection Hbad as ->. reflexivity.
        -- apply Forall_cons in Hbefore as [[y Hy] _]. rewrite Hx in Hy. discriminate.
Qed.

(** The values of the mapping table. *)
Lemma typeMap_values (key tag : string) :
  typeMap !! key = Some tag ->
  tag ∈ [ "Text"; "TextArea"; "Date"; "DateTime"; "Number"; "Checkbox"; "Picklist";
          "Email"; "Phone"; "Url" ].
Proof.
  unfold typeMap. intros H. apply elem_of_list_to_map_2 in H.
  repeat (apply elem_of_cons in H as [[= -> ->] | H]; [repeat constructor|]).
  apply elem_of_nil in H. contradiction.
Qed.

Lemma lookup_type_cases (key : string) :
  (forall tag, lookup_type key = FTStr tag ->
     tag ∈ [ "Text"; "TextArea"; "Date"; "DateTime"; "Number"; "Checkbox"; "Picklist";
             "Email"; "Phone"; "Url" ]) /\
  (forall b, lookup_type key = FTBuiltin b -> key ∈ inherited) /\
  markup_free (field_type_to_string (lookup_type key)) = true.
Proof.
  unfold lookup_type. destruct (typeMap !! key) as [t|] eqn:Ht.
  - apply typeMap_values in Ht. repeat split.
    + intros tag [= <-]. exact Ht.
    + discriminate.
    + cbn. repeat (apply elem_of_cons in Ht as [-> | Ht]; [reflexivity|]).
      apply elem_of_nil in Ht. contradiction.
  - destruct (object_prototype !! key) as [b|] eqn:Hb.
    + unfold object_prototype in Hb. apply elem_of_list_to_map_2 in Hb.
      repeat split.
      * discriminate.
      * intros _ _. unfold inherited.
        repeat (apply elem_of_cons in Hb as [[= -> _] | Hb]; [repeat constructor|]).
        apply elem_of_nil in Hb. contradiction.
      * repeat (apply elem_of_cons in Hb as [[= _ ->] | Hb]; [reflexivity|]).
        apply elem_of_nil in Hb. contradiction.
    + repeat split.
      * intros tag [= <-]. repeat constructor.
      * discriminate.
Qed.

(** X10: whatever the declared type is, the tag written into the fragment is
    a value of the mapping table or the print of a member of
    [Object.prototype], and holds no markup: the declared type itself
    is never copied into a document. *)
Theorem lookup_type_tag (key : string) :
  (forall tag, lookup_type key = FTStr tag ->
     tag ∈ [ "Text"; "TextArea"; "Date"; "DateTime"; "Number"; "Checkbox"; "Picklist";
             "Email"; "Phone"; "Url" ]) /\
  (forall b, lookup_type key = FTBuiltin b -> key ∈ inherited) /\
  markup_free (field_type_to_string (lookup_type key)) = true.
Proof.
  exact (lookup_type_cases key).
Qed.

End Fragments.

(** ** What the fragments and the object descriptor declare *)

Section Attributes.

(** Tries the labels of the [switch] one after the other. *)
Ltac by_case_label s :=
  destruct (String.eqb s "Text") eqn:?HText;
    [apply String.eqb_eq in HText; subst s|];
  [|destruct (String.eqb s "TextArea") eqn:?HTextArea;
      [apply String.eqb_eq in HTextArea; subst s|]];
  [| |destruct (String.eqb s "Date") eqn:?HDate;
        [apply String.eqb_eq in HDate; subst s|]];
  [| | |destruct (String.eqb s "DateTime") eqn:?HDateTime;
          [apply String.eqb_eq in HDateTime; subst s|]];
  [| | | |destruct (String.eqb s "Number") eqn:?HNumber;
            [apply String.eqb_eq in HNumber; subst s|]];
  [| | | | |destruct (String.eqb s "Checkbox") eqn:?HCheckbox;
              [apply String.eqb_eq in HCheckbox; subst s|]];
  [| | | | | |destruct (String.eqb s "Picklist") eqn:?HPicklist;
                [apply String.eqb_eq in HPicklist; subst s|]].

(** X11: no generated field is ever required: every fragment says
    [required] false once, except the one of a checkbox, which has no
    [required] element and says [defaultValue] false instead. *)
Theorem generateFieldXml_required (field : json) (fieldType : field_type)
    (name label : string) :
  name_and_label field = Normal (name, label) ->
  exists attributes,
    generateFieldXml field fieldType =
      Normal (baseXml name label (field_type_to_string fieldType) +:+ nl +:+ attributes) /\
    element_texts "required" attributes =
      (if case_label fieldType "Checkbox" then [] else ["false"]) /\
    element_texts "defaultValue" attributes =
      (if case_label fieldType "Checkbox" then ["false"] else []).
Proof.
  intros Hnl. read_name_and_label field Hnl.
  destruct fieldType as [s|b]; cbn [case_label].
  - by_case_label s; cbn [case_label String.eqb Ascii.eqb Bool.eqb];
      rewrite ?HText, ?HTextArea, ?HDate, ?HDateTime, ?HNumber, ?HCheckbox, ?HPicklist;
      eexists; (split; [reflexivity|]); split; vm_compute; reflexivity.
  - eexists. split; [reflexivity|]. split; vm_compute; reflexivity.
Qed.

Lemma generateFieldXml_required_witness :
  exists attributes,
    generateFieldXml (field_of "Is_Active" "Is Active" "Checkbox") (FTStr "Checkbox") =
      Normal (baseXml "Is_Active" "Is Active" "Checkbox" +:+ nl +:+ attributes) /\
    element_texts "required" attributes = [] /\
    element_texts "defaultValue" attributes = ["false"].
Proof.
  exact (generateFieldXml_required (field_of "Is_Active" "Is Active" "Checkbox")
           (FTStr "Checkbox") "Is_Active" "Is Active" eq_refl).
Defined.

(** X12: the sizes follow the resolved type: a long text has length 32768
    and 3 visible lines; a number has precision 18 and scale 0; a date,
    a date-time, a checkbox and a picklist have no length; every other
    resolved type has length 255.  No other type has visible lines, a
    precision or a scale. *)
Theorem generateFieldXml_sizes (field : json) (fieldType : field_type)
    (name label : string) :
  name_and_label field = Normal (name, label) ->
  exists attributes,
    generateFieldXml field fieldType =
      Normal (baseXml name label (field_type_to_string fieldType) +:+ nl +:+ attributes) /\
    element_texts "length" attributes =
      (if case_label fieldType "TextArea" then ["32768"]
       else if case_label fieldType "Date" || case_label fieldType "DateTime"
               || case_label fieldType "Number" || case_label fieldType "Checkbox"
               || case_label fieldType "Picklist" then []
       else ["255"]) /\
    element_texts "visibleLines" attributes =
      (if case_label fieldType "TextArea" then ["3"] else []) /\
    element_texts "precision" attributes =
      (if case_label fieldType "Number" then ["18"] else []) /\
    element_texts "scale" attributes =
      (if case_label fieldType "Number" then ["0"] else []).
Proof.
  intros Hnl. read_name_and_label field Hnl.
  destruct fieldType as [s|b]; cbn [case_label].
  - by_case_label s; cbn [case_label String.eqb Ascii.eqb Bool.eqb];
      rewrite ?HText, ?HTextArea, ?HDate, ?HDateTime, ?HNumber, ?HCheckbox, ?HPicklist;
      eexists; (split; [reflexivity|]); repeat split; vm_compute; reflexivity.
  - eexists. split; [reflexivity|]. repeat split; vm_compute; reflexivity.
Qed.

Lemma generateFieldXml_sizes_witness :
  exists attributes,
    generateFieldXml (field_of "Notes" "Notes" "TextArea") (FTStr "TextArea") =
      Normal (baseXml "Notes" "Notes" "TextArea" +:+ nl +:+ attributes) /\
    element_texts "length" attributes = ["32768"] /\
    element_texts "visibleLines" attributes = ["3"].
Proof.
  destruct (generateFieldXml_sizes (field_of "Notes" "Notes" "TextArea")
              (FTStr "TextArea") "Notes" "Notes" eq_refl)
    as (attributes & Hxml & Hlength & Hlines & _).
  exists attributes. repeat split; assumption.
Defined.

End Attributes.

Section Descriptor.

(** Writes a document as one text, its literal parts character by
    character. *)
Ltac normalize_text :=
  cbv [lines xml_declaration metadata_namespace dq nl]; rewrite ?append_assoc; simpl.

(** Runs [split_at] over a document, through the interpolated texts that
    are known to be free of markup. *)
Ltac scan :=
  simpl; repeat (rewrite split_at_markup_free by assumption; simpl); reflexivity.

(** Reads the elements of one name off a document. *)
Ltac read_elements :=
  repeat (erewrite element_texts_cons; [|scan|scan]);
  rewrite ?append_empty_r;
  repeat f_equal; apply element_texts_nil; scan.

(** X13: read back from the object descriptor of a name that is free of
    markup: the full name is the name followed by [__c]; the labels are
    the name and, for the name field, the name followed by [ Number];
    the name field is an auto-number with display format the name
    followed by [-{0000}]; sharing is read-write; sharing, bulk API,
    streaming API, reports, search and activities are enabled, history
    is not; the object is deployed. *)
Theorem generateObjectMetadata_elements (name : string) (fields : list json) :
  markup_free name = true ->
  exists doc,
    generateObjectMetadata (Some (JStr name)) fields = Normal doc /\
    element_texts "fullName" doc = [name +:+ "__c"] /\
    element_texts "label" doc = [name; name +:+ " Number"] /\
    element_texts "type" doc = ["AutoNumber"] /\
    element_texts "displayFormat" doc = [name +:+ "-{0000}"] /\
    element_texts "sharingModel" doc = ["ReadWrite"] /\
    Forall (fun flag => element_texts flag doc = ["true"])
      [ "enableSharing"; "enableBulkApi"; "enableStreamingApi"; "enableReports";
        "enableSearch"; "enableActivities" ] /\
    element_texts "enableHistory" doc = ["false"] /\
    element_texts "deploymentStatus" doc = ["Deployed"].
Proof.
  intros Hname. eexists. split; [reflexivity|].
  normalize_text.
  repeat match goal with
         | |- _ /\ _ => split
         | |- Forall _ (_ :: _) => apply Forall_cons_2
         | |- Forall _ [] => apply Forall_nil_2
         end.
  all: read_elements.
Qed.

Lemma generateObjectMetadata_elements_witness :
  exists doc,
    generateObjectMetadata (Some (JStr "Beat_Plan")) [] = Normal doc /\
    element_texts "fullName" doc = ["Beat_Plan__c"] /\
    element_texts "label" doc = ["Beat_Plan"; "Beat_Plan Number"] /\
    element_texts "displayFormat" doc = ["Beat_Plan-{0000}"].
Proof.
  destruct (generateObjectMetadata_elements "Beat_Plan" [] eq_refl)
    as (doc & Hdoc & Hfull & Hlabel & _ & Hformat & _).
  exists doc. repeat split; assumption.
Defined.

End Descriptor.

(** ** Reading the fields descriptor back *)

Section FieldsDescriptor.

Ltac normalize_text :=
  cbv [lines xml_declaration metadata_namespace dq nl]; rewrite ?append_assoc; simpl.

Ltac scan :=
  simpl; repeat (rewrite split_at_markup_free by assumption; simpl); reflexivity.

Lemma element_texts_unclosed (tag doc before inside : string) :
  split_at ("<" +:+ tag +:+ ">") doc = Some (before, inside) ->
  split_at ("</" +:+ tag +:+ ">") inside = None ->
  element_texts tag doc = [].
Proof.
  intros Hopen Hclose. unfold element_texts.
  destruct (String.length doc); cbn [element_texts_upto]; [reflexivity|].
  rewrite Hopen, Hclose. reflexivity.
Qed.

Lemma element_texts_passes (tag text rest : string) :
  passes tag text -> element_texts tag (text +:+ rest) = element_texts tag rest.
Proof.
  intros Hpass. specialize (Hpass rest).
  destruct (split_at ("<" +:+ tag +:+ ">") rest) as [[before inside]|] eqn:Hopen.
  - destruct (split_at ("</" +:+ tag +:+ ">") inside) as [[text' rest']|] eqn:Hclose.
    + rewrite (element_texts_cons _ _ _ _ _ _ Hpass Hclose).
      rewrite (element_texts_cons _ _ _ _ _ _ Hopen Hclose). reflexivity.
    + rewrite (element_texts_unclosed _ _ _ _ Hpass Hclose).
      rewrite (element_texts_unclosed _ _ _ _ Hopen Hclose). reflexivity.
  - rewrite (element_texts_nil _ _ Hpass), (element_texts_nil _ _ Hopen). reflexivity.
Qed.

(** Shows that a literal text passes the search for [<type>]. *)
Ltac literal_passes :=
  intros ?rest; normalize_text;
  match goal with
  | |- context [split_at ?pat ?r] => destruct (split_at pat r) as [[? ?]|]
  end; reflexivity.

Lemma fragment_type (field : json) (fieldType : field_type) (name label : string) :
  name_and_label field = Normal (name, label) ->
  markup_free name = true -> markup_free label = true ->
  markup_free (field_type_to_string fieldType) = true ->
  exists fragment,
    generateFieldXml field fieldType = Normal fragment /\
    forall rest,
      element_texts "type" (fragment +:+ rest) =
        field_type_to_string fieldType :: element_texts "type" rest.
Proof.
  intros Hnl Hname Hlabel Htag.
  assert (Hshape : exists attributes,
            generateFieldXml field fieldType =
              Normal (baseXml name label (field_type_to_string fieldType)
                        +:+ nl +:+ attributes) /\
            passes "type" (nl +:+ attributes)).
  { read_name_and_label field Hnl.
    destruct fieldType as [s|b]; cbn [case_label].
    - destruct (String.eqb s "Text");
        [|destruct (String.eqb s "TextArea");
          [|destruct (String.eqb s "Date");
            [|destruct (String.eqb s "DateTime");
              [|destruct (String.eqb s "Number");
                [|destruct (String.eqb s "Checkbox");
                  [|destruct (String.eqb s "Picklist")]]]]]];
        (eexists; split; [reflexivity|literal_passes]).
    - eexists; split; [reflexivity|literal_passes]. }
  destruct Hshape as (attributes & -> & Hpass).
  eexists. split; [reflexivity|]. intros rest.
  revert Hpass Htag. generalize (nl +:+ attributes) as tail.
  generalize (field_type_to_string fieldType) as tag. intros tag tail Hpass Htag.
  unfold baseXml. rewrite !append_assoc. normalize_text.
  erewrite element_texts_cons; [|scan|scan].
  rewrite append_empty_r. f_equal. apply element_texts_passes, Hpass.
Qed.

Lemma field_element_type (field : json) :
  plain_field field ->
  exists fragment tag,
    field_element field = Normal fragment /\
    type_tag field = Normal tag /\
    forall rest, element_texts "type" (fragment +:+ rest) = tag :: element_texts "type" rest.
Proof.
  intros (name & label & tag & Hnl & Hname & Hlabel & Htag).
  unfold type_tag, field_element in *.
  destruct (get_prop field "type") as [type|]; [|discriminate]. cbn in *.
  unfold getFieldType in *.
  destruct (to_string_opt type) as [key|]; [|discriminate]. cbn in *.
  injection Htag as <-.
  destruct (fragment_type field (lookup_type key) name label Hnl Hname Hlabel)
    as (fragment & Hfragment & Hread).
  { apply lookup_type_cases. }
  exists fragment, (field_type_to_string (lookup_type key)).
  rewrite Hfragment. repeat split. exact Hread.
Qed.

Lemma fieldElements_types (fields : list json) :
  Forall plain_field fields ->
  exists fragments tags,
    fieldElements fields = Normal fragments /\
    Forall2 (fun field tag => type_tag field = Normal tag) fields tags /\
    forall rest,
      element_texts "type" (lines fragments +:+ rest) =
        (tags ++ element_texts "type" rest)%list.
Proof.
  induction 1 as [|field fields Hfield _ (fragments & tags & Hfragments & Htags & Hread)].
  - exists [], []. repeat split. constructor.
  - destruct (field_element_type field Hfield) as (fragment & tag & Hfragment & Htag & Hone).
    exists (fragment :: fragments), (tag :: tags). cbn [fieldElements].
    rewrite Hfragment. cbn. rewrite Hfragments. cbn.
    split; [reflexivity|]. split; [constructor; assumption|].
    intros rest. destruct fragments as [|next fragments].
    + cbn [lines]. rewrite Hone.
      assert (tags = []) as ->; [|reflexivity].
      specialize (Hread rest). change (lines [] +:+ rest) with rest in Hread.
      apply (f_equal length) in Hread. rewrite length_app in Hread.
      destruct tags; [reflexivity|]. cbn in Hread. lia.
    + change (lines (fragment :: next :: fragments))
        with (fragment +:+ nl +:+ lines (next :: fragments)).
      rewrite !append_assoc, Hone.
      change ((tag :: tags) ++ element_texts "type" rest)%list
        with (tag :: (tags ++ element_texts "type" rest))%list.
      f_equal. rewrite <- Hread.
      match goal with
      | |- element_texts _ ?text = _ =>
          change text with (nl +:+ (lines (next :: fragments) +:+ rest))
      end.
      apply element_texts_passes.
      intros r. unfold nl. simpl.
      destruct (split_at "<type>" r) as [[? ?]|]; reflexivity.
Qed.

(** X14: read back from the fields descriptor of fields whose names and
    labels are free of markup, the [<type>] elements are the resolved
    type tags of the fields, one for each field and in the order of the
    request. *)
Theorem generateFieldsMetadata_types (fields : list json) :
  Forall plain_field fields ->
  exists doc,
    generateFieldsMetadata fields = Normal doc /\
    Forall2 (fun field tag => type_tag field = Normal tag)
      fields (element_texts "type" doc).
Proof.
  intros Hfields.
  destruct (fieldElements_types fields Hfields)
    as (fragments & tags & Hfragments & Htags & Hread).
  unfold generateFieldsMetadata. rewrite Hfragments.
  eexists. split; [reflexivity|].
  assert (Hhead : passes "type"
            (xml_declaration +:+ nl +:+ ("<CustomObject " +:+ metadata_namespace +:+ ">") +:+ nl)).
  { literal_passes. }
  match goal with
  | |- Forall2 _ _ (element_texts _ ?doc) =>
      replace doc
        with ((xml_declaration +:+ nl +:+ ("<CustomObject " +:+ metadata_namespace +:+ ">")
                 +:+ nl) +:+ (lines fragments +:+ nl +:+ "</CustomObject>"))
        by (cbn [lines]; rewrite !append_assoc; reflexivity)
  end.
  rewrite (element_texts_passes _ _ _ Hhead), Hread.
  replace (element_texts "type" (nl +:+ "</CustomObject>")) with (@nil string)
    by (vm_compute; reflexivity).
  rewrite app_nil_r. exact Htags.
Qed.

Lemma generateFieldsMetadata_types_witness :
  exists doc,
    generateFieldsMetadata
      [ field_of "Location" "Location" "Text"; field_of "Contact_Email" "Contact Email" "Email";
        field_of "Site" "Site" "URL"; field_of "Other" "Other" "Geolocation" ] = Normal doc /\
    element_texts "type" doc = ["Text"; "Email"; "Url"; "Text"].
Proof.
  destruct (generateFieldsMetadata_types
              [ field_of "Location" "Location" "Text";
                field_of "Contact_Email" "Contact Email" "Email";
                field_of "Site" "Site" "URL"; field_of "Other" "Other" "Geolocation" ])
    as (doc & Hdoc & Htags).
  - repeat (apply Forall_cons_2; [eexists _, _, _; repeat split; reflexivity|]).
    apply Forall_nil_2.
  - exists doc. split; [exact Hdoc|].
    injection Hdoc as <-. vm_compute. reflexivity.
Defined.

End FieldsDescriptor.

(** ** The test client *)

Section TestClient.

#[local] Arguments String.append : simpl never.
#[local] Arguments stage_and_deploy : simpl never.

Ltac in_log H :=
  repeat (apply elem_of_cons in H as [H | H]; [try discriminate H|]);
  try (apply elem_of_nil in H; contradiction).

Lemma post_in_creation_failed (error : client_error) (url : string) (body : json) :
  Post url body ∉ creation_failed error.
Proof.
  unfold creation_failed. intros Hin. destruct (error_response error); in_log Hin.
Qed.

Lemma testCreateMetadata_posts (ax : axios) (url : string) (body : json) :
  Post url body ∈ (testCreateMetadata ax).1 <->
  url = API_BASE_URL +:+ "/create-metadata" /\ body = testData.
Proof.
  unfold testCreateMetadata.
  assert (Hfailed : forall e, ~ Post url body ∈ creation_failed e)
    by (intros e; apply post_in_creation_failed).
  split.
  - intros Hin.
    repeat match type of Hin with
           | context [match ?x with _ => _ end] => destruct x
           end; cbn [fst] in Hin;
      repeat (apply elem_of_app in Hin as [Hin | Hin]);
      try (exfalso; exact (Hfailed _ Hin));
      in_log Hin; injection Hin as -> ->; split; reflexivity.
  - intros [-> ->].
    repeat match goal with
           | |- context [match ?x with _ => _ end] => destruct x
           end; cbn [fst];
      rewrite ?elem_of_app; repeat left; repeat constructor.
Qed.

(** X15: [runTests] sends the create-metadata request exactly when the
    health check resolved, and it only ever posts the sample request to
    [/create-metadata]: when the health check fails, nothing is posted. *)
Theorem runTests_posts (ax : axios) :
  (forall url body,
     Post url body ∈ runTests ax ->
     url = API_BASE_URL +:+ "/create-metadata" /\ body = testData /\
     exists response, axios_get ax (API_BASE_URL +:+ "/health") = Fulfilled response) /\
  (forall response,
     axios_get ax (API_BASE_URL +:+ "/health") = Fulfilled response ->
     Post (API_BASE_URL +:+ "/create-metadata") testData ∈ runTests ax).
Proof.
  unfold runTests, testHealthCheck. split.
  - intros url body Hin.
    destruct (axios_get ax (API_BASE_URL +:+ "/health")) as [response|error].
    + destruct (testCreateMetadata ax) as [creation passed] eqn:Hcreation.
      apply elem_of_cons in Hin as [Hin | Hin]; [discriminate|].
      apply elem_of_app in Hin as [Hin | Hin]; [in_log Hin|].
      apply elem_of_app in Hin as [Hin | Hin]; [|in_log Hin].
      assert (Hpost : Post url body ∈ (testCreateMetadata ax).1)
        by (rewrite Hcreation; exact Hin).
      apply testCreateMetadata_posts in Hpost as [-> ->].
      repeat split. exists response. reflexivity.
    + apply elem_of_cons in Hin as [Hin | Hin]; [discriminate|].
      apply elem_of_app in Hin as [Hin | Hin]; in_log Hin.
  - intros response ->.
    destruct (testCreateMetadata ax) as [creation passed] eqn:Hcreation.
    apply elem_of_cons. right. apply elem_of_app. right. apply elem_of_app. left.
    change creation with (creation, passed).1. rewrite <- Hcreation.
    apply testCreateMetadata_posts. split; reflexivity.
Qed.

(** X16: [testCreateMetadata] passes exactly when the POST resolved with a
    body that can be read and has a [fields] property other than [null]:
    a resolved response without it makes [response.data.fields.length]
    throw, and the test reports a failure. *)
Theorem testCreateMetadata_passes (ax : axios) :
  (testCreateMetadata ax).2 = true <->
  exists response fields,
    axios_post ax (API_BASE_URL +:+ "/create-metadata") testData = Fulfilled response /\
    get_prop (data response) "fields" = Normal (Some fields) /\ fields <> JNull.
Proof.
  unfold testCreateMetadata.
  destruct (axios_post ax (API_BASE_URL +:+ "/create-metadata") testData)
    as [response|error]; cbn [snd].
  - destruct (data response) as [| | | | |props] eqn:Hdata; cbn [get_prop snd].
    1-5: split; [discriminate|];
         intros (r & f & [= <-] & Hf & _); rewrite Hdata in Hf; discriminate.
    destruct (own_prop props "fields") as [[| | | | |]|] eqn:Hfields; cbn [snd].
    all: split;
      [ try discriminate; intros _; exists response; eexists;
        rewrite Hdata; cbn [get_prop]; rewrite Hfields; repeat split; discriminate
      | intros (r & f & [= <-] & Hf & Hne); rewrite Hdata in Hf; cbn in Hf;
        rewrite Hfields in Hf;
        first [ discriminate Hf
              | injection Hf as Heq; subst f; first [reflexivity | contradiction] ] ].
  - split; [discriminate | intros (? & ? & [=] & _)].
Qed.

Lemma create_metadata_status (sys : system) (body : json) :
  status (create_metadata sys body).2 = 200 \/
  status (create_metadata sys body).2 = 400 \/
  status (create_metadata sys body).2 = 500.
Proof.
  unfold create_metadata.
  destruct (try_create_metadata_cases sys body)
    as [(res & Hv & ->) | [(m & Hv & ->) | (o & f & a & Hv & ->)]]; cbn.
  - right. left. apply (validate_rejected_400 _ _ Hv).
  - right. right. reflexivity.
  - destruct (stage_and_deploy sys o f a) as [tr [res|m]] eqn:Hrun; cbn.
    + destruct (stage_and_deploy_status _ _ _ _ _ _ Hrun) as [-> | ->]; auto.
    + right. right. reflexivity.
Qed.

Lemma create_metadata_200_payload (sys : system) (body : json) :
  status (create_metadata sys body).2 = 200 ->
  exists o f output,
    payload (create_metadata sys body).2 =
      [ ("message", Some (JStr "Metadata created and deployed successfully"));
        ("objectName", o); ("fields", Some (JArr f)); ("output", Some (JStr output)) ].
Proof.
  unfold create_metadata.
  destruct (try_create_metadata_cases sys body)
    as [(res & Hv & ->) | [(m & Hv & ->) | (o & f & a & Hv & ->)]]; cbn.
  - rewrite (validate_rejected_400 _ _ Hv). discriminate.
  - discriminate.
  - destruct (stage_and_deploy sys o f a) as [tr c] eqn:Hstage.
    apply stage_and_deploy_inv in Hstage as (pre & _ & _ & Hcases).
    destruct Hcases as [[-> [m ->]] | Hcases]; [cbn; discriminate|].
    destruct Hcases as (? & ? & ? & ? & alias & _ & _ & _ & _ & _ & _ & Hcases).
    destruct Hcases as [(m & _ & -> & ->) | (r & post & _ & Hd & ->)]; [cbn; discriminate|].
    destruct (deployed_outcome o f r) as (post' & res & Hd' & _ & _ & Hres).
    rewrite Hd' in Hd. injection Hd as <- <-. cbn. rewrite Hres.
    destruct (error r); cbn; [discriminate|]. intros _. eexists _, _, _. reflexivity.
Qed.

(** X17: run against this server, the create-metadata test passes exactly
    when the handler answers the sample request with a 200: a 400 or a
    500 is a rejected POST, and a 200 of the handler always carries the
    [fields] the test reads. *)
Theorem testCreateMetadata_against_server (ax : axios) (sys : system) :
  talks_to ax sys ->
  (testCreateMetadata ax).2 = true <-> status (create_metadata sys testData).2 = 200.
Proof.
  intros Htalk. destruct (Htalk testData) as [Hok Hko]. cbv zeta in Hok, Hko.
  unfold testCreateMetadata.
  destruct (create_metadata_status sys testData) as [H200 | [H400 | H500]].
  - rewrite Hok by (rewrite H200; lia).
    destruct (create_metadata_200_payload sys testData H200) as (o & f & output & ->).
    destruct o as [o|]; cbn; split; auto.
  - destruct Hko as [message ->]; [rewrite H400; lia|].
    cbn. rewrite H400. split; discriminate.
  - destruct Hko as [message ->]; [rewrite H500; lia|].
    cbn. rewrite H500. split; discriminate.
Qed.

Lemma relaying_talks_to (sys : system) : talks_to (relaying sys) sys.
Proof.
  intros body. cbv zeta. unfold relaying. cbn [axios_post]. split.
  - intros [Hlo Hhi].
    apply Nat.leb_le in Hlo. apply Nat.ltb_lt in Hhi. rewrite Hlo, Hhi. reflexivity.
  - intros Hout.
    destruct (Nat.leb 200 (status (create_metadata sys body).2)) eqn:Hlo;
      destruct (Nat.ltb (status (create_metadata sys body).2) 300) eqn:Hhi; cbn;
      try (eexists; reflexivity).
    apply Nat.leb_le in Hlo. apply Nat.ltb_lt in Hhi. exfalso. apply Hout. split; assumption.
Qed.

Lemma testCreateMetadata_against_server_witness :
  (testCreateMetadata (relaying (stub_system deploy_ok))).2 = true /\
  (testCreateMetadata (relaying (stub_system deploy_failed))).2 <> true.
Proof.
  split.
  - apply (testCreateMetadata_against_server _ (stub_system deploy_ok));
      [apply relaying_talks_to | vm_compute; reflexivity].
  - intros H.
    apply (testCreateMetadata_against_server _ (stub_system deploy_failed)) in H;
      [vm_compute in H; discriminate | apply relaying_talks_to].
Defined.

End TestClient.

(** ** Instances *)

Lemma generateFieldXml_unrecognized_witness :
  getFieldType (Some (JStr "Geolocation")) = Normal (FTStr "Text") /\
  generateFieldXml (field_of "Site" "Site" "Geolocation") (FTStr "Text") =
    Normal (lines
      [ baseXml "Site" "Site" "Text";
        "        <length>255</length>";
        "        <required>false</required>";
        "    </fields>" ]).
Proof.
  apply (generateFieldXml_unrecognized (field_of "Site" "Site" "Geolocation")
           "Geolocation" "Site" "Site").
  - unfold recognized. rewrite !not_elem_of_cons. repeat split; try discriminate.
    apply not_elem_of_nil.
  - unfold inherited. rewrite !not_elem_of_cons. repeat split; try discriminate.
    apply not_elem_of_nil.
  - reflexivity.
Defined.

Lemma validate_orgAlias_witness :
  validate (JObj [("objectName", JStr "Beat_Plan"); ("fields", JArr [JNull; JObj []])]) =
    Normal (Rejected (bad_request "orgAlias is required")).
Proof.
  apply (validate_orgAlias _ (Some (JStr "Beat_Plan")) (Some (JArr [JNull; JObj []])) None);
    reflexivity.
Defined.
